(** * hdfm: area maps for the weather radar overlay

    A shallow embedding of [src/map_manager.py] (the config reader
    [IHeartRadioConfig], the config entries [AreaId] and [Coordinates], and the
    three-tier map cache [MapManager]) and of [src/us_map.py] (the older
    [AreaMap]), with the properties the specification states about them.

    Conventions of the embedding:
    - a Python [str] is a [string]; the model covers ASCII text;
    - a Python [float] is an IEEE binary64 number, Rocq's primitive [float];
    - a raised exception is the [Raise] outcome of [result]; stateful methods
      return the outcome together with the state the call leaves behind, so
      that what a failing call has already assigned stays visible;
    - a path is the list of its components, as [pathlib] parses a name; what
      the operating system makes of a path (the file it names, or why it
      names none) depends on directories that lie outside the two files, and
      is a parameter, [FileSystem], like the builtins;
    - the files of a directory are a finite map from file to image. *)

From Stdlib Require Import ZArith String Ascii List Bool Lia.
From Stdlib Require Import PrimFloat SpecFloat FloatOps.
From stdpp Require Import base option list strings gmap.

Set Warnings "-inexact-float".
Local Open Scope Z_scope.

(** ** Python outcomes *)

(** The exception classes the two files can raise. *)
Inductive exn : Type :=
| IndexError
| KeyError (key : string)
| TypeError
| ValueError
| OverflowError
| AttributeError
| FileNotFoundError
| NotADirectoryError
| IsADirectoryError
| OSError
| Exception (msg : string).

Inductive result (A : Type) : Type :=
| Ok (a : A)
| Raise (e : exn).
Arguments Ok {A} a.
Arguments Raise {A} e.

#[export] Instance result_ret : MRet result := fun _ a => Ok a.
#[export] Instance result_bind : MBind result := fun _ _ f r =>
  match r with
  | Ok a => f a
  | Raise e => Raise e
  end.

#[export] Instance result_fmap : FMap result := fun _ _ f r =>
  match r with
  | Ok a => Ok (f a)
  | Raise e => Raise e
  end.

Definition raises {A} (r : result A) : bool :=
  match r with
  | Ok _ => false
  | Raise _ => true
  end.

(** ** Python strings *)

Module Text.

Definition dquote : ascii := "034"%char.
Definition squote : ascii := "'"%char.

(** [s[-1]] of a string whose first character is [c]. *)
Fixpoint last (c : ascii) (s : string) : ascii :=
  match s with
  | EmptyString => c
  | String c' s' => last c' s'
  end.

(** [s[:-1]]. *)
Fixpoint drop_last (s : string) : string :=
  match s with
  | EmptyString => EmptyString
  | String c EmptyString => EmptyString
  | String c s' => String c (drop_last s')
  end.

(** [s[1:-1]]: the slice is empty when [s] has fewer than three
    characters, and never fails. *)
Definition slice_1_m1 (s : string) : string :=
  match s with
  | EmptyString => EmptyString
  | String _ s' => drop_last s'
  end.

(** [body] between the characters [x] and [y]. *)
Definition wrap (x y : ascii) (body : string) : string :=
  String x (body ++ String y EmptyString).

(** [c in s] for a one-character [c]. *)
Fixpoint contains (c : ascii) (s : string) : bool :=
  match s with
  | EmptyString => false
  | String c' s' => Ascii.eqb c' c || contains c s'
  end.

(** [s.split(sep)] for a one-character separator: never empty, and
    [''.split(sep) = ['']]. *)
Fixpoint split (sep : ascii) (s : string) : list string :=
  match s with
  | EmptyString => [EmptyString]
  | String c s' =>
      if Ascii.eqb c sep then EmptyString :: split sep s'
      else match split sep s' with
           | [] => [String c EmptyString]
           | piece :: pieces => String c piece :: pieces
           end
  end.

(** The ASCII line boundaries of [str.splitlines]: LF, VT, FF, CR, FS, GS
    and RS. *)
Definition is_linebreak (c : ascii) : bool :=
  let n := nat_of_ascii c in
  ((10 <=? n) && (n <=? 13) || (28 <=? n) && (n <=? 30))%nat.

Definition CR : ascii := "013"%char.
Definition LF : ascii := "010"%char.

(** [splitlines_from cur s]: the lines of [s] after the characters [cur]
    (in reverse) of the line being read. A line ends at a boundary, CR LF
    counting as one; the text after the last boundary is a line only when
    it is not empty. *)
Fixpoint splitlines_from (cur : list ascii) (s : string) : list string :=
  match s with
  | EmptyString =>
      match cur with
      | [] => []
      | _ => [string_of_list_ascii (rev cur)]
      end
  | String c s' =>
      if is_linebreak c then
        string_of_list_ascii (rev cur) ::
          (if Ascii.eqb c CR then
             match s' with
             | String c' s'' =>
                 if Ascii.eqb c' LF then splitlines_from [] s''
                 else splitlines_from [] s'
             | EmptyString => splitlines_from [] s'
             end
           else splitlines_from [] s')
      else splitlines_from (c :: cur) s'
  end.

Definition splitlines (s : string) : list string := splitlines_from [] s.

(** [\w] on ASCII: letters, digits and the underscore. *)
Definition is_word (c : ascii) : bool :=
  let n := nat_of_ascii c in
  ((48 <=? n) && (n <=? 57) || (65 <=? n) && (n <=? 90)
   || (97 <=? n) && (n <=? 122) || (n =? 95))%nat.

Definition join (sep : string) (l : list string) : string :=
  match l with
  | [] => EmptyString
  | s :: l' => fold_left (fun acc x => acc ++ sep ++ x)%string l' s
  end.

Definition hex_digit (n : nat) : ascii :=
  ascii_of_nat (if (n <? 10)%nat then 48 + n else 87 + n)%nat.

(** One character of [repr(s)] for the quote character [q]. *)
Definition repr_char (q c : ascii) : string :=
  let n := nat_of_ascii c in
  if Ascii.eqb c q || Ascii.eqb c "\"%char then String "\"%char (String c EmptyString)
  else if (n =? 9)%nat then "\t"%string
  else if (n =? 10)%nat then "\n"%string
  else if (n =? 13)%nat then "\r"%string
  else if (n <? 32)%nat || (127 <=? n)%nat then
    String "\"%char (String "x"%char
      (String (hex_digit (n / 16)) (String (hex_digit (n mod 16)) EmptyString)))
  else String c EmptyString.

Fixpoint repr_body (q : ascii) (s : string) : string :=
  match s with
  | EmptyString => EmptyString
  | String c s' => (repr_char q c ++ repr_body q s')%string
  end.

(** [repr(s)]: single quotes unless [s] has a single quote and no double
    quote. *)
Definition repr (s : string) : string :=
  let q := if contains squote s && negb (contains dquote s) then dquote else squote in
  String q (repr_body q s ++ String q EmptyString)%string.

(** [pat in s] for a string [pat]: [pat] occurs somewhere in [s]. *)
Fixpoint has_sub (pat s : string) : bool :=
  String.prefix pat s
  || match s with
     | EmptyString => false
     | String _ s' => has_sub pat s'
     end.

(** The lines a text file gives when it is iterated: a line ends at LF, CR
    or CR LF, each read as LF, and keeps that LF; the text after the last
    line end is a line when it is not empty. [cur] holds the line being
    read, in reverse. *)
Fixpoint file_lines_from (cur : list ascii) (s : string) : list string :=
  match s with
  | EmptyString =>
      match cur with
      | [] => []
      | _ => [string_of_list_ascii (rev cur)]
      end
  | String c s' =>
      if Ascii.eqb c LF then
        string_of_list_ascii (rev (LF :: cur)) :: file_lines_from [] s'
      else if Ascii.eqb c CR then
        string_of_list_ascii (rev (LF :: cur)) ::
          match s' with
          | String c' s'' =>
              if Ascii.eqb c' LF then file_lines_from [] s''
              else file_lines_from [] s'
          | EmptyString => file_lines_from [] s'
          end
      else file_lines_from (c :: cur) s'
  end.

Definition file_lines (s : string) : list string := file_lines_from [] s.

End Text.

(** ** Values of a parsed config *)

(** [IHeartRadioConfigType] declares [Dict[str, Union[str, List[str]]]]; what
    [IHeartRadioConfig.load] stores is a string, [None], or a list of strings
    and [None]s (an element [None] is Python's [None]). *)
Inductive pyval : Type :=
| PyNone
| PyStr (s : string)
| PyList (l : list (option string)).

Definition repr_item (o : option string) : string :=
  match o with
  | None => "None"%string
  | Some s => Text.repr s
  end.

(** [str(v)], as f-strings and [str.format] render a value. *)
Definition py_str (v : pyval) : string :=
  match v with
  | PyNone => "None"%string
  | PyStr s => s
  | PyList l => ("[" ++ Text.join ", " (map repr_item l) ++ "]")%string
  end.

(** ** Paths *)

Module Paths.

(** A component [pathlib] keeps: neither empty nor [.]. *)
Definition kept (c : string) : bool := negb (String.eqb c "") && negb (String.eqb c ".").

(** The root of a name: [/] for an absolute name, [//] when the name starts
    with exactly two slashes, none for a relative name. *)
Definition root (s : string) : list string :=
  match s with
  | String "/" (String "/" (String "/" _)) => ["/"%string]
  | String "/" (String "/" _) => ["//"%string]
  | String "/" _ => ["/"%string]
  | _ => []
  end.

(** [Path(s)], given by its [parts]: the root, if any, and the components
    between slashes, the empty ones and the [.] ones left out ([..] stays).
    Two paths are equal when their parts are: [Path('a//b')], [Path('a/./b')]
    and [Path('a/b')] are one path. A relative path is below the directory
    it is joined to, [static_config.cache_directory] or [MAPS]; as in
    [os.path.join], an absolute one is not. *)
Definition Path (s : string) : list string :=
  root s ++ List.filter kept (Text.split "/" s).

Fixpoint lstrip_dots (s : string) : string :=
  match s with
  | String "." s' => lstrip_dots s'
  | _ => s
  end.

(** [os.path.splitext(p)[1]] from the last component of [p]: the text from
    its last dot on, the dots that start the component not counting. *)
Definition splitext (name : string) : string :=
  let stem := lstrip_dots name in
  if Text.contains "." stem then ("." ++ List.last (Text.split "." stem) "")%string
  else EmptyString.

Definition extension (path : list string) : string := splitext (List.last path EmptyString).

End Paths.

(** ** IHeartRadioConfig *)

Module IHeartRadioConfig.

(** [strip_quotes]: [s[0]] raises [IndexError] on the empty string; a
    string wrapped in a pair of equal quotes loses them; for any other
    string the body falls off its end, which returns [None]. *)
Definition strip_quotes (s : string) : result (option string) :=
  match s with
  | EmptyString => Raise IndexError
  | String s0 s' =>
      let s_1 := Text.last s0 s' in
      if Ascii.eqb s0 s_1 && Ascii.eqb s_1 Text.dquote
         || Ascii.eqb s0 s_1 && Ascii.eqb s_1 Text.squote
      then Ok (Some (Text.slice_1_m1 s))
      else Ok None
  end.

(** The list comprehension of [_parse_value]: parts are stripped from left
    to right, and the first exception ends the comprehension. *)
Fixpoint strip_parts (parts : list string) : result (list (option string)) :=
  match parts with
  | [] => Ok []
  | part :: rest =>
      p ← strip_quotes part;
      ps ← strip_parts rest;
      Ok (p :: ps)
  end.

Definition scalar (o : option string) : pyval :=
  match o with
  | None => PyNone
  | Some s => PyStr s
  end.

Definition _parse_value (value : string) : result pyval :=
  if Text.contains ";" value then
    PyList <$> strip_parts (Text.split ";" value)
  else
    scalar <$> strip_quotes value.

(** [re.search(r'(\w+)=(.*?)$', line)] on one line: the match starts at the
    leftmost position from which a run of word characters reaches an [=],
    so the key is the whole run of word characters before the first [=]
    that follows a word character, and the value is the rest of the line.
    [run] holds the current run of word characters, in reverse. *)
Fixpoint key_val_from (run : list ascii) (line : string) : option (string * string) :=
  match line with
  | EmptyString => None
  | String c rest =>
      if Text.is_word c then key_val_from (c :: run) rest
      else if Ascii.eqb c "="%char then
        match run with
        | [] => key_val_from [] rest
        | _ => Some (string_of_list_ascii (rev run), rest)
        end
      else key_val_from [] rest
  end.

Definition key_val_re (line : string) : option (string * string) :=
  key_val_from [] line.

(** The loop of [load]: each matching line assigns [result[key]]. *)
Fixpoint load_lines (res : gmap string pyval) (lines : list string)
  : result (gmap string pyval) :=
  match lines with
  | [] => Ok res
  | line :: rest =>
      match key_val_re line with
      | None => load_lines res rest
      | Some (key, val) =>
          v ← _parse_value val;
          load_lines (<[key := v]> res) rest
      end
  end.

Definition load (text : string) : result (gmap string pyval) :=
  load_lines ∅ (Text.splitlines text).

End IHeartRadioConfig.

(** ** Floats and the builtins the code calls *)

(** [float(s)], [math.tan] and [math.asinh] belong to the Python runtime and
    the platform's C library; the development is stated for every
    implementation of them. Each may raise ([float('x')] and [math.tan(inf)]
    raise [ValueError]). *)
Class Builtins : Type := {
  py_float : string → result float;
  math_tan : float → result float;
  math_asinh : float → result float;
}.

(** [math.radians(x)] is [x * (pi / 180)]. *)
Definition degToRad : float := (3.141592653589793 / 180)%float.
Definition math_radians (x : float) : float := (x * degToRad)%float.

(** [int(x)]: truncation towards zero; [ValueError] on a NaN and
    [OverflowError] on an infinity. *)
Definition py_int (x : float) : result Z :=
  match Prim2SF x with
  | S754_zero _ => Ok 0
  | S754_finite s m e =>
      let magnitude := Z.shiftl (Zpos m) e in
      Ok (if s then - magnitude else magnitude)
  | S754_infinity _ => Raise OverflowError
  | S754_nan => Raise ValueError
  end.

(** ** Config entries *)

(** [IHeartRadioConfigEntry.__init__] stores [self.parse(value)]; [AreaId]
    inherits the identity [parse], so its value is whatever the config holds
    under the key. *)
Module AreaId.
Definition key : string := "DWR_Area_ID".
Definition parse (value : pyval) : pyval := value.
End AreaId.

Module Coordinates.

Definition key : string := "Coordinates".

(** The entry's value, [((lat_top, lon_left), (lat_bottom, lon_right))]. *)
Definition value : Type := (float * float) * (float * float).

Definition lat_top (v : value) : float := fst (fst v).
Definition lat_bottom (v : value) : float := fst (snd v).
Definition lon_left (v : value) : float := snd (fst v).
Definition lon_right (v : value) : float := snd (snd v).

(** [len(value)]. *)
Definition len (v : pyval) : result nat :=
  match v with
  | PyNone => Raise TypeError
  | PyStr s => Ok (String.length s)
  | PyList l => Ok (length l)
  end.

(** [value[i]]: a character of a string, an element of a list. *)
Definition item (v : pyval) (i : nat) : result (option string) :=
  match v with
  | PyNone => Raise TypeError
  | PyStr s =>
      match String.get i s with
      | Some c => Ok (Some (String c EmptyString))
      | None => Raise IndexError
      end
  | PyList l =>
      match l !! i with
      | Some o => Ok o
      | None => Raise IndexError
      end
  end.

(** [x[1:-1]]; [None] is not subscriptable. *)
Definition inner (x : option string) : result string :=
  match x with
  | None => Raise TypeError
  | Some s => Ok (Text.slice_1_m1 s)
  end.

(** [a, b = l]. *)
Definition unpack2 (l : list string) : result (string * string) :=
  match l with
  | [a; b] => Ok (a, b)
  | _ => Raise ValueError
  end.

(** [value[i][1:-1].split(',')] unpacked into two names. *)
Definition edge (v : pyval) (i : nat) : result (string * string) :=
  x ← item v i;
  s ← inner x;
  unpack2 (Text.split "," s).

Definition malformed (v : pyval) : exn :=
  Exception ("Coordinates " ++ String Text.dquote (py_str v)
             ++ String Text.dquote " in config are malformed.")%string.

Definition parse `{Builtins} (v : pyval) : result value :=
  n ← len v;
  if negb (n =? 2)%nat then Raise (malformed v)
  else
    '(lat_top, lon_left) ← edge v 0;
    '(lat_bottom, lon_right) ← edge v 1;
    f1 ← py_float lat_top;
    f2 ← py_float lon_left;
    f3 ← py_float lat_bottom;
    f4 ← py_float lon_right;
    Ok ((f1, f2), (f3, f4)).

End Coordinates.

(** ** The image library *)

(** Pillow is outside the repository. An image is modelled by what the code
    can observe of it, its size and mode, and by its content, written as the
    way it was derived from decoded files. *)
Module PIL.

Inductive mode : Type := M1 | L | LA | P | RGB | RGBA.

#[export] Instance mode_eq_dec : EqDecision mode.
Proof. solve_decision. Defined.

Inductive pixels : Type :=
| Decoded (source : string)
| Cropped (box : Z * Z * Z * Z) (p : pixels)
| Resized (size : Z * Z) (p : pixels)
| Converted (m : mode) (p : pixels).

Record Image : Type := mkImage {
  size : Z * Z;
  mode_of : mode;
  content : pixels;
}.

(** [im.crop((left, upper, right, lower))]: Pillow refuses a box whose
    right or lower edge precedes the left or upper one. *)
Definition crop (box : Z * Z * Z * Z) (im : Image) : result Image :=
  let '(x0, y0, x1, y1) := box in
  if (x1 <? x0) || (y1 <? y0) then Raise ValueError
  else Ok (mkImage (x1 - x0, y1 - y0) (mode_of im) (Cropped box (content im))).

(** [im.resize(size)]: a copy when the size is already [size]. *)
Definition resize (sz : Z * Z) (im : Image) : Image :=
  if decide (size im = sz) then im
  else mkImage sz (mode_of im) (Resized sz (content im)).

(** [im.convert(mode)]: a copy when the mode is already [mode]. *)
Definition convert (m : mode) (im : Image) : Image :=
  if decide (mode_of im = m) then im
  else mkImage (size im) m (Converted m (content im)).

End PIL.

(** ** The files the code reads and writes *)

(** [static_config.main_map_file] is the reference map, absent when the file
    is missing; [cache_directory] holds the area maps that are on disk, by
    file. A file holds an image: saving an image and opening the file again
    gives the image back. *)
Record files : Type := mkFiles {
  main_map_file : option PIL.Image;
  cache_directory : gmap string PIL.Image;
}.

(** What the operating system makes of a path: it names the place of a file
    (which may hold one or not), or no place (a directory on the way is
    missing or is a file, the name has a null character: [stat] fails with
    an error [Path.exists] takes for absence), or it cannot be examined
    ([stat] fails otherwise, as on a name that is too long). *)
Inductive access : Type :=
| File (key : string)
| Missing
| Broken.

(** The directories are [static_config.cache_directory] and [MAPS], which
    the two files import: how a path is located, and the exception of an
    operation the system refuses, are parameters. The code creates no
    directory, so the place of a path does not change. A file that has a
    place can be read, written and deleted: permissions and exhausted
    storage are not modelled. *)
Class FileSystem : Type := {
  locate : list string → access;
  refusal : files → list string → exn;
}.

(** The image the file named [path] holds, if there is such a file. *)
Definition file_at `{F : FileSystem} (path : list string) (fs : files) : option PIL.Image :=
  match locate path with
  | File key => cache_directory fs !! key
  | Missing | Broken => None
  end.

(** [path.exists()]. *)
Definition exists_ `{F : FileSystem} (path : list string) (fs : files) : result bool :=
  match locate path with
  | File key => Ok (bool_decide (is_Some (cache_directory fs !! key)))
  | Missing => Ok false
  | Broken => Raise (refusal fs path)
  end.

(** [path.is_file()]: the directories hold image files only. *)
Definition is_file `{F : FileSystem} (path : list string) (fs : files) : result bool :=
  exists_ path fs.

(** [Image.open(path)]. *)
Definition open_ `{F : FileSystem} (path : list string) (fs : files) : result PIL.Image :=
  match locate path with
  | File key =>
      match cache_directory fs !! key with
      | Some im => Ok im
      | None => Raise FileNotFoundError
      end
  | Missing | Broken => Raise (refusal fs path)
  end.

(** The file [key] deleted. *)
Definition erase (key : string) (fs : files) : files :=
  mkFiles (main_map_file fs) (delete key (cache_directory fs)).

(** [path.unlink()]. *)
Definition unlink `{F : FileSystem} (path : list string) (fs : files) : result files :=
  match locate path with
  | File key =>
      match cache_directory fs !! key with
      | Some _ => Ok (erase key fs)
      | None => Raise FileNotFoundError
      end
  | Missing | Broken => Raise (refusal fs path)
  end.

(** The file [key] written with [value]. *)
Definition write (value : PIL.Image) (key : string) (fs : files) : files :=
  mkFiles (main_map_file fs) (<[key := value]> (cache_directory fs)).

(** Whether Pillow has a format for the name of [path]. The code saves
    under names that end in [.png]: their extension is [.png], or none when
    the last component is [.png] after dots only. *)
Definition png (path : list string) : bool := String.eqb (Paths.extension path) ".png".

(** [value.save(path)]. Pillow takes the format from the extension before
    it opens the file, and raises [ValueError] when it has none for it.
    Then the file is opened for writing, which the system may refuse. *)
Definition save `{F : FileSystem} (value : PIL.Image) (path : list string) (fs : files)
  : result files :=
  if negb (png path) then Raise ValueError
  else match locate path with
       | File key => Ok (write value key fs)
       | Missing | Broken => Raise (refusal fs path)
       end.

(** A directory of config files as a listing gives it: the name and the
    text of each file, in the order of the listing. *)
Definition directory : Type := list (string * string).

(** The pattern [*DWRI*]: the name has [DWRI] in it. *)
Definition is_DWRI (f : string * string) : bool := Text.has_sub "DWRI" f.1.

(** ** MapManager *)

Module MapManager.

(** Max latitude of the US map in a linear form, and the reference
    latitude in linear form. *)
Definition LAT_MAX : float := 1.0799224683069641%float.
Definition REF_LAT : float := 0.7380009964270406%float.

(** The instance attributes. *)
Record t : Type := mk {
  area_id : option pyval;
  coordinates : option Coordinates.value;
  _map : option PIL.Image;
}.

(** [__init__]. *)
Definition init : t := mk None None None.

(** What a method leaves behind: its outcome, the instance and the files. *)
Definition outcome (A : Type) : Type := result A * t * files.

(** [map_cache_file], below the cache directory: [self.area_id.value]
    raises [AttributeError] while [area_id] is [None]. *)
Definition map_cache_file (self : t) : result (list string) :=
  match area_id self with
  | None => Raise AttributeError
  | Some value => Ok (Paths.Path ("map_" ++ py_str value ++ ".png"))
  end.

Definition has_config (self : t) : bool :=
  bool_decide (area_id self ≠ None) && bool_decide (coordinates self ≠ None).

(** [reload_config], from the text [fp.read()] returned. [area_id] is
    assigned before the coordinates are looked up and parsed. *)
Definition reload_config `{Builtins} (config_text : string) (self : t) (fs : files)
  : outcome unit :=
  match IHeartRadioConfig.load config_text with
  | Raise e => (Raise e, self, fs)
  | Ok config =>
      match config !! AreaId.key with
      | None => (Raise (KeyError AreaId.key), self, fs)
      | Some a =>
          let self := mk (Some (AreaId.parse a)) (coordinates self) (_map self) in
          match config !! Coordinates.key with
          | None => (Raise (KeyError Coordinates.key), self, fs)
          | Some c =>
              match Coordinates.parse c with
              | Raise e => (Raise e, self, fs)
              | Ok v =>
                  let self := mk (area_id self) (Some v) (_map self) in
                  (* Remove map so it can be reloaded *)
                  (Ok (), mk (area_id self) (coordinates self) None, fs)
              end
          end
      end
  end.

(** [_load_main_map]. *)
Definition _load_main_map (fs : files) : result PIL.Image :=
  match main_map_file fs with
  | Some im => Ok im
  | None => Raise FileNotFoundError
  end.

(** [make_linear], the local function of [create_map]. *)
Definition make_linear `{Builtins} (val : float) : result float :=
  t ← math_tan (math_radians val);
  a ← math_asinh t;
  Ok (LAT_MAX - a)%float.

(** The crop box of [create_map]: the four offsets handed to [crop]. *)
Definition crop_box `{Builtins} (c : Coordinates.value) : result (Z * Z * Z * Z) :=
  lin_lat_top ← make_linear (Coordinates.lat_top c);
  lin_lat_bottom ← make_linear (Coordinates.lat_bottom c);
  let x1 := ((Coordinates.lon_left c + 130.781250) * 7162 / 39.34135)%float in
  let x2 := ((Coordinates.lon_right c + 130.781250) * 7162 / 39.34135)%float in
  let den := (LAT_MAX - REF_LAT)%float in
  let y1 := (lin_lat_top * 3565 / den)%float in
  let y2 := (lin_lat_bottom * 3565 / den)%float in
  i1 ← py_int x1;
  j1 ← py_int y1;
  i2 ← py_int x2;
  j2 ← py_int y2;
  Ok (i1, j1, i2, j2).

(** [create_map]: reads the main map and the coordinates, writes nothing.
    [self.coordinates.lat_top] raises [AttributeError] while [coordinates]
    is [None]. *)
Definition create_map `{Builtins} (self : t) (fs : files) : result PIL.Image :=
  main_map ← _load_main_map fs;
  c ← match coordinates self with
      | Some c => Ok c
      | None => Raise AttributeError
      end;
  box ← crop_box c;
  cropped ← PIL.crop box main_map;
  Ok (PIL.convert PIL.RGBA (PIL.resize (900, 900) cropped)).

(** The setter of [map]: the attribute is assigned first, then the cache
    file is deleted if it exists and written. What a raising step leaves
    behind stays: the attribute, and the deletion. *)
Definition map_setter `{F : FileSystem} (value : PIL.Image) (self : t) (fs : files)
  : outcome unit :=
  let self := mk (area_id self) (coordinates self) (Some value) in
  match map_cache_file self with
  | Raise e => (Raise e, self, fs)
  | Ok path =>
      match exists_ path fs with
      | Raise e => (Raise e, self, fs)
      | Ok found =>
          match (if found then unlink path fs else Ok fs) with
          | Raise e => (Raise e, self, fs)
          | Ok fs =>
              match save value path fs with
              | Raise e => (Raise e, self, fs)
              | Ok fs => (Ok (), self, fs)
              end
          end
      end
  end.

(** The getter of [map]: cache attribute, then cache file, then a new
    map. *)
Definition map `{Builtins} `{F : FileSystem} (self : t) (fs : files) : outcome PIL.Image :=
  match _map self with
  | Some m => (Ok m, self, fs)
  | None =>
      match map_cache_file self with
      | Raise e => (Raise e, self, fs)
      | Ok path =>
          match exists_ path fs with
          | Raise e => (Raise e, self, fs)
          | Ok true =>
              match open_ path fs with
              | Raise e => (Raise e, self, fs)
              | Ok map_image =>
                  let '(r, self', fs') := map_setter map_image self fs in
                  (r ≫= (fun _ => Ok (PIL.convert PIL.RGBA map_image)), self', fs')
              end
          | Ok false =>
              match create_map self fs with
              | Raise e => (Raise e, self, fs)
              | Ok map_image =>
                  let '(r, self', fs') := map_setter map_image self fs in
                  (r ≫= (fun _ => Ok map_image), self', fs')
              end
          end
      end
  end.

(** The shape the specification gives a tile: 900 by 900 pixels, in a mode
    with an alpha channel. *)
Definition tile_shaped (im : PIL.Image) : Prop :=
  PIL.size im = (900, 900) ∧ PIL.mode_of im = PIL.RGBA.

(** Every stored tile, in the attribute or in the cache directory, has that
    shape. *)
Definition well_shaped (self : t) (fs : files) : Prop :=
  (∀ m, _map self = Some m → tile_shaped m)
  ∧ (∀ path file, cache_directory fs !! path = Some file → tile_shaped file).

(** [find_and_reload_config] on the dump directory [dump]:
    [dump_directory.glob] lists every name that has [DWRI] in it; the first
    file listed is reloaded from, and every listed file is deleted once
    [reload_config] has returned. The directory left behind comes with the
    outcome. *)
Definition find_and_reload_config `{Builtins} (dump : directory) (self : t) (fs : files)
  : outcome bool * directory :=
  match List.filter is_DWRI dump with
  | [] => (Ok false, self, fs, dump)
  | (_, config_text) :: _ =>
      let '(r, self', fs') := reload_config config_text self fs in
      match r with
      | Ok _ => (Ok true, self', fs', List.filter (fun f => negb (is_DWRI f)) dump)
      | Raise e => (Raise e, self', fs', dump)
      end
  end.

End MapManager.

(** ** AreaMap *)

Module AreaMap.

Definition LAT_MAX : float := 1.0799224683069641%float.
Definition REF_LAT : float := 0.7380009964270406%float.

(** The instance attributes; [None] until a config is read. *)
Record t : Type := mk {
  lat1 : option float;
  lon1 : option float;
  lat2 : option float;
  lon2 : option float;
  area_id : option string;
  map : option PIL.Image;
}.

Definition init : t := mk None None None None None None.

Definition outcome (A : Type) : Type := result A * t * files.

Definition has_config (self : t) : bool := bool_decide (area_id self ≠ None).

(** ['{0}.png'.format(self.area_id)], the name joined to [MAPS]; the files
    of [MAPS] are the [cache_directory] of [files], [MAP_FILE] its
    [main_map_file]. *)
Definition name (self : t) : string :=
  (match area_id self with
   | Some a => a
   | None => "None"
   end ++ ".png")%string.

(** An attribute used as a number: [None] raises [TypeError]. *)
Definition number (x : option float) : result float :=
  match x with
  | Some v => Ok v
  | None => Raise TypeError
  end.

Definition linear `{Builtins} (x : option float) : result float :=
  v ← number x;
  t ← math_tan (math_radians v);
  a ← math_asinh t;
  Ok (LAT_MAX - a)%float.

(** The lines of [render] from [x1] to the box handed to [crop]; they read
    the attributes, the latitudes already in linear form. *)
Definition offsets (self : t) : result (Z * Z * Z * Z) :=
  o1 ← number (lon1 self);
  let x1 := ((o1 + 130.781250) * 7162 / 39.34135)%float in
  o2 ← number (lon2 self);
  let x2 := ((o2 + 130.781250) * 7162 / 39.34135)%float in
  let den := (LAT_MAX - REF_LAT)%float in
  l1 ← number (lat1 self);
  let y1 := (l1 * 3565 / den)%float in
  l2 ← number (lat2 self);
  let y2 := (l2 * 3565 / den)%float in
  i1 ← py_int x1;
  j1 ← py_int y1;
  i2 ← py_int x2;
  j2 ← py_int y2;
  Ok (i1, j1, i2, j2).

(** [render]. The two latitudes are converted in place: [self.lat1] and
    [self.lat2] hold the linear form from then on. The image is assigned to
    [self.map] before it is saved; the system reads the name it is saved
    under by its components, as a [Path]. [render] returns nothing; the
    outcome carries the image. *)
Definition render `{Builtins} `{F : FileSystem} (self : t) (fs : files) : outcome PIL.Image :=
  match MapManager._load_main_map fs with
  | Raise e => (Raise e, self, fs)
  | Ok us_map =>
  match linear (lat1 self) with
  | Raise e => (Raise e, self, fs)
  | Ok l1 =>
  let self := mk (Some l1) (lon1 self) (lat2 self) (lon2 self) (area_id self) (map self) in
  match linear (lat2 self) with
  | Raise e => (Raise e, self, fs)
  | Ok l2 =>
  let self := mk (lat1 self) (lon1 self) (Some l2) (lon2 self) (area_id self) (map self) in
  match offsets self ≫= (fun box => PIL.crop box us_map) with
  | Raise e => (Raise e, self, fs)
  | Ok cropped =>
  let m := PIL.convert PIL.RGBA (PIL.resize (900, 900) cropped) in
  let self := mk (lat1 self) (lon1 self) (lat2 self) (lon2 self) (area_id self) (Some m) in
  match save m (Paths.Path (name self)) fs with
  | Raise e => (Raise e, self, fs)
  | Ok fs => (Ok m, self, fs)
  end end end end end.

(** [get_map]: the map in memory, else the rendered file, else a new
    rendering. *)
Definition get_map `{Builtins} `{F : FileSystem} (self : t) (fs : files) : outcome PIL.Image :=
  match map self with
  | Some m => (Ok m, self, fs)
  | None =>
      let file := Paths.Path (name self) in
      match is_file file fs with
      | Raise e => (Raise e, self, fs)
      | Ok true =>
          match open_ file fs with
          | Raise e => (Raise e, self, fs)
          | Ok im =>
              let m := PIL.convert PIL.RGBA im in
              (Ok m, mk (lat1 self) (lon1 self) (lat2 self) (lon2 self) (area_id self) (Some m),
               fs)
          end
      | Ok false => render self fs
      end
  end.

(** [glob(os.path.join(DUMP, '*DWRI*'))]: as [is_DWRI], but [glob.glob]
    leaves out the names that start with a dot. *)
Definition glob_DWRI (f : string * string) : bool :=
  is_DWRI f && negb (String.prefix "." f.1).

(** [re.findall(r'\"(.+?)\"', line)[0]], when there is a match. The match
    starts at the first double quote that is followed by one character
    other than LF and then, before any LF, by another double quote; its
    group runs up to the first such quote. [closing s] is the text of [s]
    before its first double quote, when no LF comes first. *)
Fixpoint closing (s : string) : option string :=
  match s with
  | EmptyString => None
  | String c s' =>
      if Ascii.eqb c Text.dquote then Some EmptyString
      else if Ascii.eqb c Text.LF then None
      else String c <$> closing s'
  end.

Fixpoint first_quoted (line : string) : option string :=
  match line with
  | EmptyString => None
  | String c s' =>
      if Ascii.eqb c Text.dquote then
        match s' with
        | EmptyString => None
        | String c1 s'' =>
            if Ascii.eqb c1 Text.LF then first_quoted s'
            else match closing s'' with
                 | Some body => Some (String c1 body)
                 | None => first_quoted s'
                 end
        end
      else first_quoted s'
  end.

Definition is_digit (c : ascii) : bool :=
  let n := nat_of_ascii c in ((48 <=? n) && (n <=? 57))%nat.

Definition is_sign (c : ascii) : bool := Ascii.eqb c "+" || Ascii.eqb c "-".

(** [re.findall(r"[-+]?\d*\.\d+|\d+", line)], read in one pass. The state
    is what the first alternative has matched so far from the current start:
    a sign, then digits, then the point, then the digits of the fraction
    (digits in reverse). When the first alternative fails, the digits before
    the point, without the sign, are what the second alternative matches
    from the first digit; a complete first alternative is a match with its
    sign. *)
Inductive scan : Type :=
| Idle
| Signed (sg : ascii)
| Digits (sg : option ascii) (ds : list ascii)
| Point (sg : option ascii) (ds : list ascii)
| Fraction (sg : option ascii) (ds fs : list ascii).

Definition text_of (l : list ascii) : string := string_of_list_ascii (rev l).

Definition integer_match (ds : list ascii) : list string :=
  match ds with
  | [] => []
  | _ => [text_of ds]
  end.

Definition decimal_match (sg : option ascii) (ds fs : list ascii) : string :=
  (match sg with
   | Some c => String c EmptyString
   | None => EmptyString
   end ++ text_of ds ++ "." ++ text_of fs)%string.

(** A match attempt starting at [c]. *)
Definition start (c : ascii) : scan :=
  if is_digit c then Digits None [c]
  else if is_sign c then Signed c
  else if Ascii.eqb c "." then Point None []
  else Idle.

(** One character: the next state and the match completed before it. *)
Definition step (st : scan) (c : ascii) : scan * list string :=
  match st with
  | Idle => (start c, [])
  | Signed sg =>
      if is_digit c then (Digits (Some sg) [c], [])
      else if Ascii.eqb c "." then (Point (Some sg) [], [])
      else (start c, [])
  | Digits sg ds =>
      if is_digit c then (Digits sg (c :: ds), [])
      else if Ascii.eqb c "." then (Point sg ds, [])
      else (start c, integer_match ds)
  | Point sg ds =>
      if is_digit c then (Fraction sg ds [c], [])
      else (start c, integer_match ds)
  | Fraction sg ds fs =>
      if is_digit c then (Fraction sg ds (c :: fs), [])
      else (start c, [decimal_match sg ds fs])
  end.

(** The match pending at the end of the line. *)
Definition finish (st : scan) : list string :=
  match st with
  | Idle | Signed _ => []
  | Digits _ ds | Point _ ds => integer_match ds
  | Fraction sg ds fs => [decimal_match sg ds fs]
  end.

Fixpoint numbers_from (st : scan) (s : string) : list string :=
  match s with
  | EmptyString => finish st
  | String c s' =>
      let '(st', found) := step st c in
      found ++ numbers_from st' s'
  end.

Definition numbers (line : string) : list string := numbers_from Idle line.

(** [float(x) for x in coords], consumed from the left; the first
    exception ends it. *)
Fixpoint floats `{Builtins} (coords : list string) : result (list float) :=
  match coords with
  | [] => Ok []
  | x :: rest =>
      f ← py_float x;
      fs ← floats rest;
      Ok (f :: fs)
  end.

(** Unpacking the generator into four names: the generator is asked for a
    fifth value before the four are assigned, and any other count raises
    [ValueError]. *)
Definition unpack4 `{Builtins} (coords : list string)
  : result (float * float * float * float) :=
  fl ← floats (take 5 coords);
  match fl with
  | [f1; f2; f3; f4] => Ok (f1, f2, f3, f4)
  | _ => Raise ValueError
  end.

(** The loop of [get_config] over the lines of the file. *)
Fixpoint read_lines `{Builtins} (lines : list string) (self : t) : result () * t :=
  match lines with
  | [] => (Ok (), self)
  | line :: rest =>
      if Text.has_sub "DWR_Area_ID" line then
        match first_quoted line with
        | None => (Raise IndexError, self)
        | Some a =>
            read_lines rest
              (mk (lat1 self) (lon1 self) (lat2 self) (lon2 self) (Some a) (map self))
        end
      else if Text.has_sub "Coordinates" line then
        match unpack4 (numbers line) with
        | Raise e => (Raise e, self)
        | Ok (f1, f2, f3, f4) =>
            read_lines rest
              (mk (Some f1) (Some f2) (Some f3) (Some f4) (area_id self) (map self))
        end
      else read_lines rest self
  end.

(** [get_config] on the dump directory [dump]: the first file listed is
    read; no file is deleted. *)
Definition get_config `{Builtins} (dump : directory) (self : t) : result bool * t :=
  match List.filter glob_DWRI dump with
  | [] => (Ok false, self)
  | (_, text) :: _ =>
      let '(r, self') := read_lines (Text.file_lines text) self in
      (r ≫= (fun _ => Ok true), self')
  end.

End AreaMap.

(** ** A runnable instance of the builtins *)

(** The examples below run the model on concrete inputs. For that they use
    an instance of [Builtins] written with binary64 arithmetic: [float] on
    plain decimal literals, correctly rounded, and [tan] and [asinh] by
    their series. The theorems do not depend on it. *)
Module Sample.

Definition of_Z (z : Z) (e : Z) : float := SF2Prim (binary_normalize prec emax z e false).

Definition digit (c : ascii) : option Z :=
  let n := nat_of_ascii c in
  if ((48 <=? n) && (n <=? 57))%nat then Some (Z.of_nat n - 48) else None.

(** The digits of [s] appended to [acc]; [None] when [s] has another
    character. *)
Fixpoint digits (acc : Z) (s : string) : option Z :=
  match s with
  | EmptyString => Some acc
  | String c s' =>
      match digit c with
      | Some d => digits (10 * acc + d) s'
      | None => None
      end
  end.

(** [n / 10^k], rounded once: the quotient keeps more than 64 bits, and
    its last bit records whether the division was inexact. *)
Definition decimal (n : Z) (k : Z) : float :=
  let shift := 64 + 4 * k in
  let num := Z.shiftl n shift in
  let den := 10 ^ k in
  let q := num / den in
  let sticky := if (num mod den =? 0) then 0 else 1 in
  of_Z (2 * q + sticky) (- (shift + 1)).

Definition unsigned (s : string) : option float :=
  match Text.split "." s with
  | [i] =>
      if (String.length i =? 0)%nat then None
      else n ← digits 0 i; Some (decimal n 0)
  | [i; f] =>
      if (String.length i + String.length f =? 0)%nat then None
      else n ← digits 0 (i ++ f)%string; Some (decimal n (Z.of_nat (String.length f)))
  | _ => None
  end.

Definition float_of_string (s : string) : result float :=
  let r :=
    match s with
    | String "-" s' => PrimFloat.opp <$> unsigned s'
    | String "+" s' => unsigned s'
    | _ => unsigned s
    end in
  match r with
  | Some x => Ok x
  | None => Raise ValueError
  end.

(** [Σ term_i] for [n] terms, where [term_(i+1) = term_i * x2 * next i]. *)
Fixpoint series (n : nat) (i : float) (term acc x2 : float)
         (next : float → float) : float :=
  match n with
  | O => acc
  | S n' => series n' (i + 1) (term * x2 * next i) (acc + term) x2 next
  end.

Definition sin (x : float) : float :=
  series 30 0 x 0 (x * x) (fun i => -1 / ((2 * i + 2) * (2 * i + 3)))%float.
Definition cos (x : float) : float :=
  series 30 0 1 0 (x * x) (fun i => -1 / ((2 * i + 1) * (2 * i + 2)))%float.

Definition tan (x : float) : result float :=
  match Prim2SF x with
  | S754_infinity _ => Raise ValueError
  | _ => Ok (sin x / cos x)%float
  end.

(** [2 * atanh z], with [z = (m - 1) / (m + 1)], is [ln m]. *)
Fixpoint atanh_series (n : nat) (k : float) (pow acc z2 : float) : float :=
  match n with
  | O => acc
  | S n' => atanh_series n' (k + 2) (pow * z2) (acc + pow / k) z2
  end.

Definition ln2 : float := 0.6931471805599453%float.

Definition ln (y : float) : float :=
  let '(m, e) := FloatOps.Z.frexp y in
  let z := ((m - 1) / (m + 1))%float in
  (of_Z e 0 * ln2 + 2 * atanh_series 40 1 z 0 (z * z))%float.

Definition asinh (t : float) : result float :=
  let a := PrimFloat.abs t in
  let r := ln (a + PrimFloat.sqrt (a * a + 1))%float in
  Ok (if PrimFloat.ltb t 0 then - r else r)%float.

#[export] Instance builtins : Builtins := {|
  py_float := float_of_string;
  math_tan := tan;
  math_asinh := asinh;
|}.

(** A file system for the examples: the directory of the maps is the root
    of a tree that has no other directory, so that a path names a file
    when, from the root, it has one component. The root and [..] lead to
    the root; a name holds at most 255 characters. *)
Definition at_root (c : string) : bool :=
  String.eqb c "/" || String.eqb c "//" || String.eqb c "..".

Fixpoint below_root (path : list string) : list string :=
  match path with
  | c :: rest => if at_root c then below_root rest else path
  | [] => []
  end.

Definition flat_locate (path : list string) : access :=
  if existsb (Text.contains "000") path then Missing
  else match below_root path with
       | [] => Broken
       | name :: rest =>
           if (255 <? String.length name)%nat then Broken
           else match rest with
                | [] => File name
                | _ => Missing
                end
       end.

(** [ValueError] for a null character, [OSError] for a name too long; a
    path through a name that is not a directory raises
    [NotADirectoryError] when the name is a file and [FileNotFoundError]
    when it is nothing; the root is a directory. *)
Definition flat_refusal (fs : files) (path : list string) : exn :=
  if existsb (Text.contains "000") path then ValueError
  else match below_root path with
       | [] => IsADirectoryError
       | name :: _ =>
           if (255 <? String.length name)%nat then OSError
           else match cache_directory fs !! name with
                | Some _ => NotADirectoryError
                | None => FileNotFoundError
                end
       end.

#[export] Instance file_system : FileSystem := {|
  locate := flat_locate;
  refusal := flat_refusal;
|}.

End Sample.

(** ** Inputs of the examples *)

Module Examples.

(** [s] between double quotes. *)
Definition quoted (s : string) : string := Text.wrap Text.dquote Text.dquote s.

Definition newline : string := String Text.LF EmptyString.

(** The config of the specification's parsing example. *)
Definition config_text : string :=
  ("DWR_Area_ID=" ++ quoted "ABC123" ++ newline
   ++ "Coordinates=" ++ quoted "(40.5,-75.1)" ++ ";" ++ quoted "(39.5,-74.1)")%string.

(** A config that names an area and gives no coordinates. *)
Definition id_only_text : string := ("DWR_Area_ID=" ++ quoted "NEW")%string.


(** A config file whose coordinates come first and whose area id is not
    between quotes. *)
Definition bare_id_text : string :=
  ("Coordinates=" ++ quoted "(40.5,-75.1)" ++ ";" ++ quoted "(39.5,-74.1)" ++ newline
   ++ "DWR_Area_ID=NEW" ++ newline)%string.

(** The reference map, and a cache directory with no file. *)
Definition us_map : PIL.Image := PIL.mkImage (14324, 7130) PIL.RGB (PIL.Decoded "us_map.png").
Definition fresh_files : files := mkFiles (Some us_map) ∅.

(** The box of the continental US. *)
Definition us_box : Coordinates.value := ((49, -125), (24, -66))%float.

(** A small picture in an opaque mode, as a caller may assign to [map]. *)
Definition photo : PIL.Image := PIL.mkImage (10, 10) PIL.RGB (PIL.Decoded "photo.png").

(** A small picture with an alpha channel. *)
Definition icon : PIL.Image := PIL.mkImage (10, 10) PIL.RGBA (PIL.Decoded "icon.png").

(** A manager configured for the area [OLD], holding a map. *)
Definition old_manager : MapManager.t :=
  MapManager.mk (Some (PyStr "OLD")) (Some us_box) (Some icon).

(** A manager configured for [ABC123] and the US box, with no map in
    memory. *)
Definition us_manager : MapManager.t :=
  MapManager.mk (Some (PyStr "ABC123")) (Some us_box) None.


(** The cache directory with one file for the area [ABC123]. *)
Definition cached (file : PIL.Image) : files :=
  mkFiles (Some us_map) {[ "map_ABC123.png"%string := file ]}.

(** A manager whose area id has a slash in it. *)
Definition slash_manager : MapManager.t :=
  MapManager.mk (Some (PyStr "a/b")) (Some us_box) None.

(** The directory of the rendered maps with one file, for the area
    [ABC123]. *)
Definition rendered_file (file : PIL.Image) : files :=
  mkFiles (Some us_map) {[ "ABC123.png"%string := file ]}.

(** The map [create_map] builds for a crop box of the reference map. *)
Definition rendered (box : Z * Z * Z * Z) : PIL.Image :=
  PIL.mkImage (900, 900) PIL.RGBA
    (PIL.Converted PIL.RGBA (PIL.Resized (900, 900) (PIL.Cropped box (PIL.Decoded "us_map.png")))).

(** An [AreaMap] that has read the US box for the area [ABC123]. *)
Definition us_area_map : AreaMap.t :=
  AreaMap.mk (Some 49%float) (Some (-125)%float) (Some 24%float) (Some (-66)%float)
             (Some "ABC123"%string) None.

(** A text that assigns the key [a] twice. *)
Definition twice_text : string :=
  ("a=" ++ quoted "1" ++ newline ++ "b=" ++ quoted "x" ++ newline ++ "a=" ++ quoted "2")%string.

(** [s] has no semicolon and no line boundary. *)
Definition clean (s : string) : bool :=
  forallb (fun c => negb (Ascii.eqb c ";") && negb (Text.is_linebreak c))
          (list_ascii_of_string s).

(** The config text for the area [id] and the corners [(a,b)] and [(c,d)]:
    two lines, each value between double quotes. *)
Definition config_for (id a b c d : string) : string :=
  ("DWR_Area_ID=" ++ quoted id ++ newline
   ++ "Coordinates=" ++ quoted (Text.wrap "(" ")" (a ++ "," ++ b))
   ++ ";" ++ quoted (Text.wrap "(" ")" (c ++ "," ++ d)))%string.

(** [s] has no line boundary. *)
Definition unbroken (s : string) : bool :=
  forallb (fun c => negb (Text.is_linebreak c)) (list_ascii_of_string s).

(** The files when the reference map is missing. *)
Definition no_main_map : files := mkFiles None ∅.

(** A dump directory with two config files and another file. *)
Definition dump_two : directory :=
  [("notes.txt", "x"); ("1_DWRI.txt", config_text); ("2_DWRI.txt", "junk")]%string.

(** A dump directory whose config file has no coordinates. *)
Definition dump_bad : directory := [("1_DWRI.txt"%string, id_only_text)].

(** A config file as [AreaMap.get_config] reads it, with two corners given
    in whole degrees. *)
Definition whole_degrees : string :=
  ("DWR_Area_ID=" ++ quoted "ABC123" ++ newline
   ++ "Coordinates=" ++ quoted "(40,-75)" ++ ";" ++ quoted "(39,-74)" ++ newline)%string.

(** An [AreaMap] that holds a map. *)
Definition old_area_map : AreaMap.t :=
  AreaMap.mk (Some 1%float) (Some 2%float) (Some 3%float) (Some 4%float)
             (Some "OLD"%string) (Some icon).

(** [s] is made of digits. *)
Definition digits_only (s : string) : bool :=
  forallb AreaMap.is_digit (list_ascii_of_string s).

(** An [AreaMap] that has read the coordinates of the US box and no area
    id. *)
Definition anonymous_area_map : AreaMap.t :=
  AreaMap.mk (Some 49%float) (Some (-125)%float) (Some 24%float) (Some (-66)%float) None None.

End Examples.

(** * Properties *)

(** ** Outcomes *)

Lemma bind_Ok {A B} (f : A → result B) (r : result A) (b : B) :
  r ≫= f = Ok b → ∃ a, r = Ok a ∧ f a = Ok b.
Proof. destruct r as [a|e]; [eauto | discriminate]. Qed.

Lemma bind_Raise {A B} (f : A → result B) (r : result A) (e : exn) :
  r ≫= f = Raise e → r = Raise e ∨ ∃ a, r = Ok a ∧ f a = Raise e.
Proof. destruct r as [a|e']; [eauto | intros [= ->]; auto]. Qed.

(** Splits a hypothesis [r ≫= f = Ok b] into its two steps. *)
Ltac bind_inv H :=
  let a := fresh "a" in
  let Ha := fresh "Ha" in
  apply bind_Ok in H; destruct H as (a & Ha & H).

(** ** Images *)

Module PILFacts.
Import PIL.

Lemma size_resize sz im : size (resize sz im) = sz.
Proof. unfold resize. case_decide; [assumption | reflexivity]. Qed.

Lemma size_convert m im : size (convert m im) = size im.
Proof. unfold convert. case_decide; reflexivity. Qed.

Lemma mode_convert m im : mode_of (convert m im) = m.
Proof. unfold convert. case_decide; [assumption | reflexivity]. Qed.

Lemma convert_same m im : mode_of im = m → convert m im = im.
Proof. intros Hm. unfold convert. case_decide; [reflexivity | contradiction]. Qed.

Lemma convert_changes m im : mode_of im ≠ m → convert m im ≠ im.
Proof. intros Hm Heq. apply Hm. rewrite <- Heq at 1. apply mode_convert. Qed.

End PILFacts.

(** ** Strings *)

Module TextFacts.
Import Text.

Lemma drop_last_app (s : string) (z : ascii) :
  drop_last (s ++ String z EmptyString) = s.
Proof.
  induction s as [|c s IH]; [reflexivity|].
  change (drop_last (String c (s ++ String z EmptyString)) = String c s).
  destruct s as [|c' s]; [reflexivity|].
  change (String c (drop_last (String c' s ++ String z EmptyString)) = String c (String c' s)).
  now rewrite IH.
Qed.

(** [s[1:-1]] of a string of at least two characters is what lies between
    its first and its last character, whatever the two are. *)
Lemma slice_1_m1_wrapped (a z : ascii) (s : string) :
  slice_1_m1 (String a (s ++ String z EmptyString)) = s.
Proof. apply drop_last_app. Qed.

Lemma last_app (c z : ascii) (s : string) :
  last c (s ++ String z EmptyString) = z.
Proof. revert c. induction s as [|c' s IH]; intros c; [reflexivity | apply IH]. Qed.

Lemma split_nonempty (sep : ascii) (s : string) : split sep s ≠ [].
Proof.
  induction s as [|c s IH]; cbn; [discriminate|].
  destruct (Ascii.eqb c sep); [discriminate|].
  destruct (split sep s); [contradiction | discriminate].
Qed.

End TextFacts.

(** ** Config values *)

Module ConfigFacts.
Import IHeartRadioConfig.

(** A value wrapped in a pair of equal quotes loses exactly that pair. *)
Lemma strip_quotes_wrapped (q : ascii) (body : string) :
  q = Text.dquote ∨ q = Text.squote →
  strip_quotes (Text.wrap q q body) = Ok (Some body).
Proof.
  intros Hq. unfold strip_quotes, Text.wrap.
  rewrite TextFacts.last_app, TextFacts.slice_1_m1_wrapped, Ascii.eqb_refl.
  destruct Hq as [-> | ->]; reflexivity.
Qed.

(** Only one layer is removed. *)
Example strip_quotes_one_layer :
  strip_quotes (Examples.quoted (Examples.quoted "x")) = Ok (Some (Examples.quoted "x")).
Proof. reflexivity. Qed.

(** A non-empty value that is not wrapped in equal quotes yields [None]. *)
Lemma strip_quotes_bare (c : ascii) (s : string) :
  (c = Text.last c s ∧ (c = Text.dquote ∨ c = Text.squote) → False) →
  strip_quotes (String c s) = Ok None.
Proof.
  intros Hbare. unfold strip_quotes.
  destruct (Ascii.eqb_spec c (Text.last c s)) as [Heq | Hne]; [|reflexivity].
  rewrite <- Heq.
  destruct (Ascii.eqb_spec c Text.dquote) as [Hd | Hd]; [exfalso; auto|].
  destruct (Ascii.eqb_spec c Text.squote) as [Hs | Hs]; [exfalso; auto|].
  reflexivity.
Qed.

Lemma strip_quotes_empty : strip_quotes EmptyString = Raise IndexError.
Proof. reflexivity. Qed.

(** C6, at the input where the code departs from it: the line
    [DWR_Area_ID=ABC123] matches [key=value] and its value is not wrapped
    in quotes, yet [load] records [None] under the key and not the value
    ["ABC123"]; the same happens to each bare part of a value split at
    semicolons. *)
Theorem load_bare_value_is_None :
  strip_quotes "ABC123" = Ok None
  ∧ load "DWR_Area_ID=ABC123" = Ok {[ "DWR_Area_ID"%string := PyNone ]}
  ∧ load "Coordinates=(40.5,-75.1);(39.5,-74.1)"
    = Ok {[ "Coordinates"%string := PyList [None; None] ]}.
Proof. repeat split; vm_compute; reflexivity. Qed.

(** The specification's parsing example: quoted values are read as
    written there. *)
Example load_config_text :
  load Examples.config_text
  = Ok (<[ "Coordinates"%string := PyList [Some "(40.5,-75.1)"; Some "(39.5,-74.1)"]%string ]>
        {[ "DWR_Area_ID"%string := PyStr "ABC123" ]}).
Proof. vm_compute. reflexivity. Qed.

End ConfigFacts.

(** ** Coordinates *)

Module CoordinatesFacts.
Import Coordinates.

Lemma parse_two_strings `{Builtins} (a b : string) :
  parse (PyList [Some a; Some b]) =
    ('(lat_top, lon_left) ← unpack2 (Text.split "," (Text.slice_1_m1 a));
     '(lat_bottom, lon_right) ← unpack2 (Text.split "," (Text.slice_1_m1 b));
     f1 ← py_float lat_top;
     f2 ← py_float lon_left;
     f3 ← py_float lat_bottom;
     f4 ← py_float lon_right;
     Ok ((f1, f2), (f3, f4))).
Proof. reflexivity. Qed.

Lemma unpack2_Ok (l : list string) (p : string * string) :
  unpack2 l = Ok p → l = [p.1; p.2].
Proof.
  destruct l as [|a [|b [|c l]]]; try discriminate.
  intros [= <-]. reflexivity.
Qed.

Lemma unpack2_Raise (l : list string) :
  length l ≠ 2%nat → unpack2 l = Raise ValueError.
Proof. destruct l as [|a [|b [|c l]]]; cbn; intros Hl; congruence. Qed.

Lemma unpack2_Raise_inv (l : list string) (e : exn) :
  unpack2 l = Raise e → e = ValueError.
Proof. destruct l as [|a [|b [|c l]]]; cbn; congruence. Qed.

(** A value that is not a list of two items makes [parse] raise: [None]
    has no length, a list or a string of another length is reported as
    malformed, and a string of two characters has no comma in the empty
    slice of its first character. *)
Lemma parse_not_two_items `{Builtins} (v : pyval) :
  (∀ a b, v ≠ PyList [a; b]) → raises (parse v) = true.
Proof.
  intros Hv. destruct v as [|s|l]; [reflexivity| |].
  - destruct s as [|c0 [|c1 [|c2 s]]]; reflexivity.
  - destruct l as [|a [|b [|c l]]]; try reflexivity.
    now destruct (Hv a b).
Qed.

Lemma parse_wrong_length `{Builtins} (l : list (option string)) :
  length l ≠ 2%nat → parse (PyList l) = Raise (malformed (PyList l)).
Proof.
  intros Hl. unfold parse. cbn [len mbind result_bind].
  destruct (Nat.eqb_spec (length l) 2); [contradiction | reflexivity].
Qed.

Lemma parse_bad_edge `{Builtins} (a b : string) :
  length (Text.split "," (Text.slice_1_m1 a)) ≠ 2%nat
  ∨ length (Text.split "," (Text.slice_1_m1 b)) ≠ 2%nat →
  parse (PyList [Some a; Some b]) = Raise ValueError.
Proof.
  intros Hbad. rewrite parse_two_strings.
  destruct (unpack2 (Text.split "," (Text.slice_1_m1 a))) as [[p1 p2]|e] eqn:Ea.
  - destruct Hbad as [Ha | Hb].
    + apply unpack2_Ok in Ea. rewrite Ea in Ha. now destruct Ha.
    + cbn. now rewrite (unpack2_Raise _ Hb).
  - apply unpack2_Raise_inv in Ea as ->. reflexivity.
Qed.

Lemma parse_edge_None `{Builtins} (a : string) :
  raises (parse (PyList [Some a; None])) = true.
Proof.
  unfold parse, edge. cbn.
  destruct (unpack2 _) as [[p1 p2]|e]; reflexivity.
Qed.

Lemma parse_Ok `{Builtins} (v : pyval) (r : value) :
  parse v = Ok r →
  ∃ a b p1 p2 p3 p4,
    v = PyList [Some a; Some b]
    ∧ Text.split "," (Text.slice_1_m1 a) = [p1; p2]
    ∧ Text.split "," (Text.slice_1_m1 b) = [p3; p4]
    ∧ py_float p1 = Ok (lat_top r) ∧ py_float p2 = Ok (lon_left r)
    ∧ py_float p3 = Ok (lat_bottom r) ∧ py_float p4 = Ok (lon_right r).
Proof.
  intros Hok.
  destruct v as [|s|l].
  - discriminate.
  - destruct s as [|c0 [|c1 [|c2 s]]]; discriminate.
  - destruct l as [|a [|b [|c l]]]; try discriminate.
    destruct a as [a|]; [|discriminate].
    destruct b as [b|].
    2:{ pose proof (parse_edge_None a) as Hn. rewrite Hok in Hn. discriminate. }
    rewrite parse_two_strings in Hok.
    bind_inv Hok. destruct a0 as [p1 p2]. apply unpack2_Ok in Ha.
    bind_inv Hok. destruct a0 as [p3 p4]. apply unpack2_Ok in Ha0.
    bind_inv Hok. bind_inv Hok. bind_inv Hok. bind_inv Hok.
    injection Hok as <-.
    exists a, b, p1, p2, p3, p4. cbn in *. auto 10.
Qed.

(** C8. [Coordinates.parse] raises whenever its value is not a list of
    exactly two segments (a list of another length is reported as
    malformed) and whenever the comma-split of a segment does not give
    exactly two parts; when it returns, the value was a list of two
    strings, each split into two parts, and the result is the four floats
    read from those parts. Every exception raised here is the
    specification's [MalformedCoordinates]. *)
Theorem parse_malformed `{Builtins} (v : pyval) :
  ((∀ a b, v ≠ PyList [a; b]) → raises (parse v) = true)
  ∧ (∀ l, v = PyList l → length l ≠ 2%nat → parse v = Raise (malformed v))
  ∧ (∀ a b, v = PyList [Some a; Some b] →
       length (Text.split "," (Text.slice_1_m1 a)) ≠ 2%nat
       ∨ length (Text.split "," (Text.slice_1_m1 b)) ≠ 2%nat →
       parse v = Raise ValueError)
  ∧ (∀ r, parse v = Ok r →
       ∃ a b p1 p2 p3 p4,
         v = PyList [Some a; Some b]
         ∧ Text.split "," (Text.slice_1_m1 a) = [p1; p2]
         ∧ Text.split "," (Text.slice_1_m1 b) = [p3; p4]
         ∧ py_float p1 = Ok (lat_top r) ∧ py_float p2 = Ok (lon_left r)
         ∧ py_float p3 = Ok (lat_bottom r) ∧ py_float p4 = Ok (lon_right r)).
Proof.
  split; [apply parse_not_two_items|].
  split; [intros l ->; apply parse_wrong_length|].
  split; [intros a b ->; apply parse_bad_edge|].
  apply parse_Ok.
Qed.


(** Segments written without brackets: the leading digit of each latitude
    and the last digit of each longitude are gone, silently. *)
Example parse_unbracketed :
  parse (H := Sample.builtins) (PyList [Some "40.5,-75.1"; Some "39.5,-74.1"]%string)
  = Ok ((0.5, -75), (9.5, -74))%float.
Proof. vm_compute. reflexivity. Qed.

Example parse_bracketed :
  parse (H := Sample.builtins) (PyList [Some "(40.5,-75.1)"; Some "(39.5,-74.1)"]%string)
  = Ok ((40.5, -75.1), (39.5, -74.1))%float.
Proof. vm_compute. reflexivity. Qed.

(** [parse_malformed] at a value of three segments, at a value of one
    segment, at a segment without a comma, and at a well-formed value. *)
Lemma parse_malformed_witness :
  let three := PyList [Some "(1,2)"; Some "(3,4)"; Some "(5,6)"]%string in
  let one := PyStr "(40.5,-75.1)" in
  let no_comma := PyList [Some "(40.5 -75.1)"; Some "(39.5,-74.1)"]%string in
  parse (H := Sample.builtins) three = Raise (malformed three)
  ∧ raises (parse (H := Sample.builtins) one) = true
  ∧ parse (H := Sample.builtins) no_comma = Raise ValueError
  ∧ ∃ a b p1 p2 p3 p4,
      PyList [Some "(40.5,-75.1)"; Some "(39.5,-74.1)"]%string = PyList [Some a; Some b]
      ∧ Text.split "," (Text.slice_1_m1 a) = [p1; p2]
      ∧ Text.split "," (Text.slice_1_m1 b) = [p3; p4]
      ∧ Sample.float_of_string p1 = Ok 40.5%float
      ∧ Sample.float_of_string p2 = Ok (-75.1)%float
      ∧ Sample.float_of_string p3 = Ok 39.5%float
      ∧ Sample.float_of_string p4 = Ok (-74.1)%float.
Proof.
  intros three one no_comma.
  split; [|split; [|split]].
  - apply (proj1 (proj2 (parse_malformed (H := Sample.builtins) three)) _ eq_refl).
    cbn. lia.
  - apply (proj1 (parse_malformed (H := Sample.builtins) one)). discriminate.
  - apply (proj1 (proj2 (proj2 (parse_malformed (H := Sample.builtins) no_comma))) _ _ eq_refl).
    left. vm_compute. lia.
  - apply (proj2 (proj2 (proj2 (parse_malformed (H := Sample.builtins)
             (PyList [Some "(40.5,-75.1)"; Some "(39.5,-74.1)"]%string))))
             ((40.5, -75.1), (39.5, -74.1))%float).
    vm_compute. reflexivity.
Defined.

End CoordinatesFacts.

(** ** Files *)

Module FilesFacts.

Lemma write_lookup (value : PIL.Image) (key : string) (fs : files) :
  cache_directory (write value key fs) !! key = Some value.
Proof. apply lookup_insert_eq. Qed.

Lemma write_lookup_ne (value : PIL.Image) (key other : string) (fs : files) :
  other ≠ key → cache_directory (write value key fs) !! other = cache_directory fs !! other.
Proof. intros Hne. apply lookup_insert_ne. congruence. Qed.

(** Deleting the file first does not show in what is written. *)
Lemma write_erase (value : PIL.Image) (key : string) (fs : files) :
  write value key (erase key fs) = write value key fs.
Proof. unfold write, erase. cbn. f_equal. apply insert_delete_eq. Qed.

Lemma write_write (value : PIL.Image) (key : string) (fs : files) :
  write value key (write value key fs) = write value key fs.
Proof. unfold write. cbn. f_equal. apply insert_insert_eq. Qed.

(** Writing a file with what it holds changes nothing. *)
Lemma write_same (value : PIL.Image) (key : string) (fs : files) :
  cache_directory fs !! key = Some value → write value key fs = fs.
Proof. intros Hf. destruct fs as [main cache]. unfold write. cbn in *. f_equal. now apply insert_id. Qed.

Lemma erase_absent (key : string) (fs : files) :
  cache_directory fs !! key = None → erase key fs = fs.
Proof. intros Hf. destruct fs as [main cache]. unfold erase. cbn in *. f_equal. now apply delete_id. Qed.

Lemma erase_lookup (key : string) (fs : files) : cache_directory (erase key fs) !! key = None.
Proof. apply lookup_delete_eq. Qed.

(** Deleting a file adds none. *)
Lemma erase_subset (key k : string) (fs : files) (im : PIL.Image) :
  cache_directory (erase key fs) !! k = Some im → cache_directory fs !! k = Some im.
Proof. unfold erase. cbn. intros Hk. now apply lookup_delete_Some in Hk as [_ ?]. Qed.

Lemma file_at_File `{F : FileSystem} (path : list string) (key : string) (fs : files) :
  locate path = File key → file_at path fs = cache_directory fs !! key.
Proof. unfold file_at. now intros ->. Qed.


(** [exists] and [is_file] find the file [open] reads. *)
Lemma exists_true `{F : FileSystem} (path : list string) (fs : files) :
  exists_ path fs = Ok true ↔ is_Some (file_at path fs).
Proof.
  unfold exists_, file_at. destruct (locate path) as [key| |].
  - destruct (cache_directory fs !! key) as [im|].
    + rewrite bool_decide_eq_true_2 by eauto. split; eauto.
    + rewrite bool_decide_eq_false_2 by (intros [? [=]]).
      split; [discriminate | intros [? [=]]].
  - split; [discriminate | intros [? [=]]].
  - split; [discriminate | intros [? [=]]].
Qed.

End FilesFacts.

(** ** MapManager: the setter and the getter *)

Module MapManagerFacts.
Import MapManager.

Lemma map_cache_file_Ok (self : t) (a : pyval) :
  area_id self = Some a →
  map_cache_file self = Ok (Paths.Path ("map_" ++ py_str a ++ ".png")).
Proof. unfold map_cache_file. now intros ->. Qed.

Lemma map_cache_file_inv (self : t) (path : list string) :
  map_cache_file self = Ok path →
  ∃ a, area_id self = Some a ∧ path = Paths.Path ("map_" ++ py_str a ++ ".png").
Proof.
  unfold map_cache_file. destruct (area_id self) as [a|]; [|discriminate].
  intros [= <-]. eauto.
Qed.


(** The setter, case by case: without an area id; on a path that cannot be
    examined; on a path that names no place; on the place of a file. *)
Lemma map_setter_cases `{F : FileSystem} (value : PIL.Image) (self : t) (fs : files) :
  map_setter value self fs =
    let self' := mk (area_id self) (coordinates self) (Some value) in
    match map_cache_file self with
    | Raise e => (Raise e, self', fs)
    | Ok path =>
        match locate path with
        | Broken => (Raise (refusal fs path), self', fs)
        | Missing => (Raise (if png path then refusal fs path else ValueError), self', fs)
        | File key =>
            if png path then (Ok (), self', write value key fs)
            else (Raise ValueError, self', erase key fs)
        end
    end.
Proof.
  unfold map_setter, map_cache_file. cbn [area_id coordinates _map]. cbv zeta.
  destruct (area_id self) as [a|]; [|reflexivity].
  set (path := Paths.Path _). unfold exists_.
  destruct (locate path) as [key| |] eqn:Hl; [| |reflexivity].
  - destruct (cache_directory fs !! key) as [file|] eqn:Hf.
    + rewrite bool_decide_eq_true_2 by eauto. unfold unlink. rewrite Hl, Hf.
      unfold save. rewrite Hl. destruct (png path); cbn; [|reflexivity].
      now rewrite FilesFacts.write_erase.
    + rewrite bool_decide_eq_false_2 by (intros [? [=]]).
      unfold save. rewrite Hl. destruct (png path); cbn; [reflexivity|].
      now rewrite (FilesFacts.erase_absent _ _ Hf).
  - unfold save. rewrite Hl. now destruct (png path).
Qed.

(** The three tiers of the getter. *)
Lemma map_memory `{Builtins} `{F : FileSystem} (self : t) (fs : files) (m : PIL.Image) :
  _map self = Some m → map self fs = (Ok m, self, fs).
Proof. unfold map. now intros ->. Qed.

(** The getter, case by case. *)
Lemma map_cases `{Builtins} `{F : FileSystem} (self : t) (fs : files) :
  map self fs =
    match _map self with
    | Some m => (Ok m, self, fs)
    | None =>
        match map_cache_file self with
        | Raise e => (Raise e, self, fs)
        | Ok path =>
            match locate path with
            | Broken => (Raise (refusal fs path), self, fs)
            | Missing =>
                match create_map self fs with
                | Raise e => (Raise e, self, fs)
                | Ok im =>
                    (Raise (if png path then refusal fs path else ValueError),
                     mk (area_id self) (coordinates self) (Some im), fs)
                end
            | File key =>
                match cache_directory fs !! key with
                | Some file =>
                    if png path then
                      (Ok (PIL.convert PIL.RGBA file),
                       mk (area_id self) (coordinates self) (Some file), fs)
                    else
                      (Raise ValueError,
                       mk (area_id self) (coordinates self) (Some file), erase key fs)
                | None =>
                    match create_map self fs with
                    | Raise e => (Raise e, self, fs)
                    | Ok im =>
                        if png path then
                          (Ok im, mk (area_id self) (coordinates self) (Some im),
                           write im key fs)
                        else
                          (Raise ValueError,
                           mk (area_id self) (coordinates self) (Some im), fs)
                    end
                end
            end
        end
    end.
Proof.
  unfold map. destruct (_map self) as [m|]; [reflexivity|].
  destruct (map_cache_file self) as [path|e] eqn:Hp; [|reflexivity].
  unfold exists_, open_.
  destruct (locate path) as [key| |] eqn:Hl; [| |reflexivity].
  - destruct (cache_directory fs !! key) as [file|] eqn:Hf.
    + rewrite bool_decide_eq_true_2 by eauto.
      rewrite map_setter_cases, Hp, Hl. cbv zeta.
      destruct (png path); cbn; [|reflexivity].
      now rewrite (FilesFacts.write_same _ _ _ Hf).
    + rewrite bool_decide_eq_false_2 by (intros [? [=]]).
      destruct (create_map self fs) as [im|e]; [|reflexivity].
      rewrite map_setter_cases, Hp, Hl. cbv zeta.
      destruct (png path); cbn; [reflexivity|].
      now rewrite (FilesFacts.erase_absent _ _ Hf).
  - destruct (create_map self fs) as [im|e]; [|reflexivity].
    rewrite map_setter_cases, Hp, Hl. reflexivity.
Qed.

Lemma create_map_shaped `{Builtins} (self : t) (fs : files) (im : PIL.Image) :
  create_map self fs = Ok im → tile_shaped im.
Proof.
  unfold create_map. intros Hc.
  bind_inv Hc. bind_inv Hc. bind_inv Hc. bind_inv Hc.
  injection Hc as <-. split.
  - now rewrite PILFacts.size_convert, PILFacts.size_resize.
  - apply PILFacts.mode_convert.
Qed.

(** Runs the getter in a hypothesis through its cases. *)
Ltac map_run H :=
  rewrite map_cases in H;
  repeat match type of H with
         | context [match ?x with _ => _ end] => destruct x eqn:?
         end;
  try discriminate H; injection H as <- <- <-.

(** The getter leaves the descriptor and the main map as they are. *)
Lemma map_keeps_descriptor `{Builtins} `{F : FileSystem} (self self' : t) (fs fs' : files)
      (r : result PIL.Image) :
  map self fs = (r, self', fs') →
  area_id self' = area_id self ∧ coordinates self' = coordinates self
  ∧ main_map_file fs' = main_map_file fs.
Proof. intros Hmap. map_run Hmap; auto. Qed.

(** Computing the map again gives the same map: [create_map] reads the
    coordinates and the main map, and the getter changes neither. *)
Lemma create_map_repeatable `{Builtins} `{F : FileSystem} (self self' : t) (fs fs' : files)
      (r : result PIL.Image) :
  map self fs = (r, self', fs') → create_map self' fs' = create_map self fs.
Proof.
  intros Hmap. apply map_keeps_descriptor in Hmap as (_ & Hc & Hf).
  unfold create_map, _load_main_map. now rewrite Hc, Hf.
Qed.

(** After a call that returned, the next call answers from memory and
    changes nothing. It returns the stored map [m]; the first call returned
    [m], or its conversion when it had read [m] from the cache file. *)
Lemma map_twice `{Builtins} `{F : FileSystem} (self self1 : t) (fs fs1 : files)
      (im : PIL.Image) :
  map self fs = (Ok im, self1, fs1) →
  ∃ m, map self1 fs1 = (Ok m, self1, fs1)
       ∧ (im = m ∨ im = PIL.convert PIL.RGBA m)
       ∧ (PIL.mode_of m = PIL.RGBA → im = m).
Proof.
  intros Hmap. rewrite map_cases in Hmap.
  destruct (_map self) as [m|] eqn:Hm.
  { injection Hmap as <- <- <-. exists m. rewrite (map_memory _ _ _ Hm). auto. }
  destruct (map_cache_file self) as [path|e]; [|discriminate].
  destruct (locate path) as [key| |]; [| |discriminate].
  - destruct (cache_directory fs !! key) as [file|].
    + destruct (png path); [|discriminate]. injection Hmap as <- <- <-.
      exists file. split; [now apply map_memory|]. split; [now right|].
      intros Hrgba. now apply PILFacts.convert_same.
    + destruct (create_map self fs) as [im'|e]; [|discriminate].
      destruct (png path); [|discriminate]. injection Hmap as <- <- <-.
      exists im'. split; [now apply map_memory|]. auto.
  - destruct (create_map self fs) as [im'|e]; discriminate.
Qed.

(** C1, at the input where the code departs from it: the cache file of the
    area holds a picture in mode RGB (a caller had assigned it to [map]).
    The first call loads it, stores it as loaded and returns its RGBA
    conversion; the second call returns the stored RGB picture. The two
    results differ, while the cache file keeps its content. *)
Theorem map_twice_after_file_hit :
  let '(r1, self1, fs1) :=
    map (H := Sample.builtins) (F := Sample.file_system)
        Examples.us_manager (Examples.cached Examples.photo) in
  let '(r2, self2, fs2) := map (H := Sample.builtins) (F := Sample.file_system) self1 fs1 in
  r1 = Ok (PIL.mkImage (10, 10) PIL.RGBA (PIL.Converted PIL.RGBA (PIL.Decoded "photo.png")))
  ∧ r2 = Ok Examples.photo
  ∧ r1 ≠ r2
  ∧ fs1 = Examples.cached Examples.photo
  ∧ fs2 = fs1.
Proof. vm_compute. repeat split; discriminate. Qed.

End MapManagerFacts.

(** ** Reloading the config *)

Module ReloadFacts.
Import MapManager.

(** What [reload_config] leaves behind, case by case. *)
Lemma reload_config_cases `{Builtins} (text : string) (self : t) (fs : files) :
  reload_config text self fs =
    match IHeartRadioConfig.load text with
    | Raise e => (Raise e, self, fs)
    | Ok config =>
        match config !! AreaId.key with
        | None => (Raise (KeyError AreaId.key), self, fs)
        | Some a =>
            match config !! Coordinates.key ≫= (fun c => Some (Coordinates.parse c)) with
            | None =>
                (Raise (KeyError Coordinates.key), mk (Some a) (coordinates self) (_map self), fs)
            | Some (Raise e) =>
                (Raise e, mk (Some a) (coordinates self) (_map self), fs)
            | Some (Ok v) => (Ok (), mk (Some a) (Some v) None, fs)
            end
        end
    end.
Proof.
  unfold reload_config.
  destruct (IHeartRadioConfig.load text) as [config|e]; [|reflexivity].
  destruct (config !! AreaId.key) as [a|]; [|reflexivity].
  destruct (config !! Coordinates.key) as [c|]; [|reflexivity].
  cbn. destruct (Coordinates.parse c); reflexivity.
Qed.




(** The specification's parsing example, reloaded into a manager that held
    a map for another area. *)
Example reload_config_text :
  reload_config (H := Sample.builtins) Examples.config_text Examples.old_manager
                (Examples.cached Examples.icon)
  = (Ok (), mk (Some (PyStr "ABC123")) (Some ((40.5, -75.1), (39.5, -74.1))%float) None,
     Examples.cached Examples.icon).
Proof. vm_compute. reflexivity. Qed.

(** C4 fails at a config that names an area and gives no coordinates:
    [reload_config] raises [KeyError], yet the manager now carries the new
    area id next to the old coordinates and the old map. *)
Lemma reload_config_partial_update :
  reload_config (H := Sample.builtins) Examples.id_only_text Examples.old_manager
                Examples.fresh_files
  = (Raise (KeyError "Coordinates"),
     mk (Some (PyStr "NEW")) (Some Examples.us_box) (Some Examples.icon),
     Examples.fresh_files)
  ∧ mk (Some (PyStr "NEW")) (Some Examples.us_box) (Some Examples.icon)
    ≠ Examples.old_manager.
Proof. split; [vm_compute; reflexivity | discriminate]. Qed.

(** The same in [AreaMap.get_config], which assigns line by line: after a
    line of coordinates, a line with an area id that is not between quotes
    raises [IndexError], and the instance holds the new coordinates next to
    the old area id and the old map. *)
Example get_config_partial_update :
  AreaMap.get_config (H := Sample.builtins) [("1_DWRI.txt"%string, Examples.bare_id_text)]
                     Examples.old_area_map
  = (Raise IndexError,
     AreaMap.mk (Some 40.5%float) (Some (-75.1)%float) (Some 39.5%float) (Some (-74.1)%float)
                (Some "OLD"%string) (Some Examples.icon)).
Proof. vm_compute. reflexivity. Qed.

(** A loop over the lines that raises has read the lines before the one
    that raised, which has assigned nothing. *)
Lemma read_lines_raise `{Builtins} (lines : list string) (s s' : AreaMap.t) (e : exn) :
  AreaMap.read_lines lines s = (Raise e, s') →
  AreaMap.map s' = AreaMap.map s
  ∧ ∃ before line after,
      lines = before ++ line :: after
      ∧ AreaMap.read_lines before s = (Ok (), s')
      ∧ AreaMap.read_lines [line] s' = (Raise e, s').
Proof.
  revert s. induction lines as [|line rest IH]; intros s; [discriminate|].
  cbn [AreaMap.read_lines].
  assert (∀ s0, AreaMap.map s0 = AreaMap.map s →
                AreaMap.read_lines rest s0 = (Raise e, s') →
                AreaMap.read_lines [line] s = (Ok (), s0) →
                AreaMap.map s' = AreaMap.map s
                ∧ ∃ before line0 after,
                    line :: rest = before ++ line0 :: after
                    ∧ AreaMap.read_lines before s = (Ok (), s')
                    ∧ AreaMap.read_lines [line0] s' = (Raise e, s')) as Hnext.
  { intros s0 Hmap Hrest Hline. apply IH in Hrest as (Hm & before & line0 & after & -> & Hb & Hl).
    split; [congruence|]. exists (line :: before), line0, after.
    split; [reflexivity|]. split; [|exact Hl].
    cbn [AreaMap.read_lines] in Hline |- *.
    destruct (Text.has_sub "DWR_Area_ID" line).
    - destruct (AreaMap.first_quoted line) as [a|]; [|discriminate].
      now injection Hline as <-.
    - destruct (Text.has_sub "Coordinates" line); [|now injection Hline as <-].
      destruct (AreaMap.unpack4 (AreaMap.numbers line)) as [[[[f1 f2] f3] f4]|e0];
        [|discriminate].
      now injection Hline as <-. }
  assert (∀ e0, (@Raise () e0, s) = (Raise e, s') →
                AreaMap.read_lines [line] s = (Raise e0, s) →
                AreaMap.map s' = AreaMap.map s
                ∧ ∃ before line0 after,
                    line :: rest = before ++ line0 :: after
                    ∧ AreaMap.read_lines before s = (Ok (), s')
                    ∧ AreaMap.read_lines [line0] s' = (Raise e, s')) as Hhere.
  { intros e0 [= -> <-] Hline. split; [reflexivity|]. now exists [], line, rest. }
  destruct (Text.has_sub "DWR_Area_ID" line) eqn:Hid.
  - destruct (AreaMap.first_quoted line) as [a|] eqn:Hq.
    + intros Hr. eapply Hnext; [|exact Hr|]; [reflexivity|]. cbn [AreaMap.read_lines]. now rewrite Hid, Hq.
    + intros Hr. apply (Hhere _ Hr). cbn [AreaMap.read_lines]. now rewrite Hid, Hq.
  - destruct (Text.has_sub "Coordinates" line) eqn:Hco.
    + destruct (AreaMap.unpack4 (AreaMap.numbers line)) as [[[[f1 f2] f3] f4]|e0] eqn:Hu.
      * intros Hr. eapply Hnext; [|exact Hr|]; [reflexivity|]. cbn [AreaMap.read_lines].
        now rewrite Hid, Hco, Hu.
      * intros Hr. apply (Hhere _ Hr). cbn [AreaMap.read_lines]. now rewrite Hid, Hco, Hu.
    + intros Hr. eapply Hnext; [|exact Hr|]; [reflexivity|]. cbn [AreaMap.read_lines]. now rewrite Hid, Hco.
Qed.

(** C4, amended. When [reload_config] raises, the files, the coordinates
    and the map in memory are as before; the area id is as before when the
    text could not be read or has no area-id key, and otherwise it is
    already the area id of the text. When [AreaMap.get_config] raises, the
    map in memory is as before and the instance is as the lines before the
    failing line left it: what they assigned, area id or coordinates, is
    new, and the failing line has assigned nothing. *)
Theorem reload_config_failure `{Builtins} :
  (∀ (text : string) (self self' : t) (fs fs' : files) (e : exn),
     reload_config text self fs = (Raise e, self', fs') →
     fs' = fs
     ∧ coordinates self' = coordinates self
     ∧ _map self' = _map self
     ∧ area_id self' =
         match IHeartRadioConfig.load text with
         | Ok config =>
             match config !! AreaId.key with
             | Some a => Some a
             | None => area_id self
             end
         | Raise _ => area_id self
         end)
  ∧ (∀ (dump : directory) (s s' : AreaMap.t) (e : exn),
       AreaMap.get_config dump s = (Raise e, s') →
       AreaMap.map s' = AreaMap.map s
       ∧ ∃ name text rest before line after,
           List.filter AreaMap.glob_DWRI dump = (name, text) :: rest
           ∧ Text.file_lines text = before ++ line :: after
           ∧ AreaMap.read_lines before s = (Ok (), s')
           ∧ AreaMap.read_lines [line] s' = (Raise e, s')).
Proof.
  split.
  - intros text self self' fs fs' e. rewrite reload_config_cases.
    destruct (IHeartRadioConfig.load text) as [config|e']; [|now intros [= <- <- <-]].
    destruct (config !! AreaId.key) as [a|]; [|now intros [= <- <- <-]].
    destruct (config !! Coordinates.key ≫= _) as [[v|e']|];
      [discriminate | now intros [= <- <- <-] | now intros [= <- <- <-]].
  - intros dump s s' e. unfold AreaMap.get_config.
    destruct (List.filter AreaMap.glob_DWRI dump) as [|[name text] rest]; [discriminate|].
    destruct (AreaMap.read_lines (Text.file_lines text) s) as [[u|e0] s0] eqn:Hr;
      [discriminate|].
    intros [= <- <-]. apply read_lines_raise in Hr as (Hm & before & line & after & Hl & Hb & Hf).
    split; [exact Hm|]. exists name, text, rest, before, line, after. auto.
Qed.

(** [reload_config_failure] at the config without coordinates, and at the
    config file whose area id is not between quotes. *)
Lemma reload_config_failure_witness :
  (Examples.fresh_files = Examples.fresh_files
   ∧ coordinates (mk (Some (PyStr "NEW")) (Some Examples.us_box) (Some Examples.icon))
     = coordinates Examples.old_manager
   ∧ _map (mk (Some (PyStr "NEW")) (Some Examples.us_box) (Some Examples.icon))
     = _map Examples.old_manager
   ∧ area_id (mk (Some (PyStr "NEW")) (Some Examples.us_box) (Some Examples.icon))
     = match IHeartRadioConfig.load Examples.id_only_text with
       | Ok config =>
           match config !! AreaId.key with
           | Some a => Some a
           | None => area_id Examples.old_manager
           end
       | Raise _ => area_id Examples.old_manager
       end)
  ∧ (Some Examples.icon = AreaMap.map Examples.old_area_map
     ∧ ∃ name text rest before line after,
         List.filter AreaMap.glob_DWRI [("1_DWRI.txt"%string, Examples.bare_id_text)]
         = (name, text) :: rest
         ∧ Text.file_lines text = before ++ line :: after
         ∧ AreaMap.read_lines (H := Sample.builtins) before Examples.old_area_map
           = (Ok (),
              AreaMap.mk (Some 40.5%float) (Some (-75.1)%float) (Some 39.5%float)
                         (Some (-74.1)%float) (Some "OLD"%string) (Some Examples.icon))
         ∧ AreaMap.read_lines (H := Sample.builtins) [line]
             (AreaMap.mk (Some 40.5%float) (Some (-75.1)%float) (Some 39.5%float)
                         (Some (-74.1)%float) (Some "OLD"%string) (Some Examples.icon))
           = (Raise IndexError,
              AreaMap.mk (Some 40.5%float) (Some (-75.1)%float) (Some 39.5%float)
                         (Some (-74.1)%float) (Some "OLD"%string) (Some Examples.icon))).
Proof.
  destruct (reload_config_failure (H := Sample.builtins)) as [Hreload Hget]. split.
  - apply (Hreload Examples.id_only_text Examples.old_manager _ Examples.fresh_files _
             (KeyError "Coordinates")).
    vm_compute. reflexivity.
  - apply (Hget [("1_DWRI.txt"%string, Examples.bare_id_text)] Examples.old_area_map
             (AreaMap.mk (Some 40.5%float) (Some (-75.1)%float) (Some 39.5%float)
                         (Some (-74.1)%float) (Some "OLD"%string) (Some Examples.icon))
             IndexError).
    vm_compute. reflexivity.
Defined.

(** A text that cannot be read, or that has no area-id key, changes
    nothing. *)
Lemma reload_config_nothing_read `{Builtins}
      (text : string) (self self' : t) (fs fs' : files) (e : exn) :
  reload_config text self fs = (Raise e, self', fs') →
  (∀ config, IHeartRadioConfig.load text = Ok config → config !! AreaId.key = None) →
  self' = self ∧ fs' = fs.
Proof.
  rewrite reload_config_cases. intros Hr Hkey.
  destruct (IHeartRadioConfig.load text) as [config|e']; [|now injection Hr as <- <- <-].
  rewrite (Hkey config eq_refl) in Hr. now injection Hr as <- <- <-.
Qed.

End ReloadFacts.

(** ** AreaMap: rendering and getting the map *)

Module AreaMapFacts.
Import AreaMap.

(** A rendering that returns has replaced both latitudes by their linear
    form, has stored the image it returns, and has written it to the file
    its name is located at. *)
Lemma render_Ok `{Builtins} `{F : FileSystem} (self self' : t) (fs fs' : files)
      (im : PIL.Image) :
  render self fs = (Ok im, self', fs') →
  ∃ l1 l2 key,
    linear (lat1 self) = Ok l1 ∧ linear (lat2 self) = Ok l2
    ∧ self' = mk (Some l1) (lon1 self) (Some l2) (lon2 self) (area_id self) (Some im)
    ∧ png (Paths.Path (name self)) = true
    ∧ locate (Paths.Path (name self)) = File key
    ∧ fs' = write im key fs.
Proof.
  unfold render.
  destruct (MapManager._load_main_map fs) as [us_map|e]; [|discriminate].
  destruct (linear (lat1 self)) as [l1|e]; [|discriminate]. cbn [lat1 lon1 lat2 lon2 area_id map].
  destruct (linear (lat2 self)) as [l2|e]; [|discriminate]. cbn [lat1 lon1 lat2 lon2 area_id map].
  destruct (offsets _ ≫= _) as [cropped|e]; [|discriminate].
  unfold save. cbn [name area_id].
  destruct (png _) eqn:Hpng; [|discriminate]. cbn [negb].
  destruct (locate _) as [key| |] eqn:Hl; [|discriminate..].
  intros [= <- <- <-]. exists l1, l2, key. repeat split; assumption.
Qed.


Lemma render_shaped `{Builtins} `{F : FileSystem} (self self' : t) (fs fs' : files)
      (im : PIL.Image) :
  render self fs = (Ok im, self', fs') → MapManager.tile_shaped im.
Proof.
  unfold render.
  destruct (MapManager._load_main_map fs) as [us_map|e]; [|discriminate].
  destruct (linear (lat1 self)) as [l1|e]; [|discriminate].
  cbn [lat1 lon1 lat2 lon2 area_id map].
  destruct (linear (lat2 self)) as [l2|e]; [|discriminate].
  cbn [lat1 lon1 lat2 lon2 area_id map].
  destruct (offsets _ ≫= _) as [cropped|e]; [|discriminate].
  destruct (save _ _ fs) as [fs0|e]; [|discriminate].
  intros [= <- <- <-]. split.
  - now rewrite PILFacts.size_convert, PILFacts.size_resize.
  - apply PILFacts.mode_convert.
Qed.

(** C5, at the input where the code departs from it: [render] called
    twice on an instance that has read the US box. The first call crops at
    (1052, 1002, 11793, 6758) and leaves the linear forms in [lat1] and
    [lat2]; the second call takes them for degrees, so its box is (1052,
    11242, 11793, 11141), which [crop] refuses. *)
Theorem render_twice_us_box :
  let '(r1, self1, fs1) :=
    render (H := Sample.builtins) (F := Sample.file_system)
           Examples.us_area_map Examples.fresh_files in
  let '(r2, self2, fs2) :=
    render (H := Sample.builtins) (F := Sample.file_system) self1 fs1 in
  r1 = Ok (Examples.rendered (1052, 1002, 11793, 6758))
  ∧ offsets self1 = Ok (1052, 1002, 11793, 6758)
  ∧ lat1 self1 = Some 0.096114595568172811%float
  ∧ lat2 self1 = Some 0.64822774156074048%float
  ∧ offsets self2 = Ok (1052, 11242, 11793, 11141)
  ∧ r2 = Raise ValueError.
Proof. vm_compute. repeat split. Qed.

(** [MapManager] keeps the linear forms in local variables: its crop box
    is a function of the coordinates, which no call changes. *)
Example crop_box_us_box :
  MapManager.crop_box (H := Sample.builtins) Examples.us_box
  = Ok (1052, 1002, 11793, 6758).
Proof. vm_compute. reflexivity. Qed.

(** [get_map], tier by tier. *)
Lemma get_map_cases `{Builtins} `{F : FileSystem} (self : t) (fs : files) :
  get_map self fs =
    match map self with
    | Some m => (Ok m, self, fs)
    | None =>
        let file := Paths.Path (name self) in
        match locate file with
        | Broken => (Raise (refusal fs file), self, fs)
        | Missing => render self fs
        | File key =>
            match cache_directory fs !! key with
            | Some im =>
                (Ok (PIL.convert PIL.RGBA im),
                 mk (lat1 self) (lon1 self) (lat2 self) (lon2 self) (area_id self)
                    (Some (PIL.convert PIL.RGBA im)), fs)
            | None => render self fs
            end
        end
    end.
Proof.
  unfold get_map. destruct (map self) as [m|]; [reflexivity|]. cbv zeta.
  unfold is_file, exists_, open_.
  destruct (locate _) as [key| |]; [|reflexivity..].
  destruct (cache_directory fs !! key) as [im|].
  - now rewrite bool_decide_eq_true_2 by eauto.
  - now rewrite bool_decide_eq_false_2 by (intros [? [=]]).
Qed.

(** After a call of [get_map] that returned, the next call returns the same
    map and changes nothing. *)
Lemma get_map_twice `{Builtins} `{F : FileSystem} (self self1 : t) (fs fs1 : files)
      (im : PIL.Image) :
  get_map self fs = (Ok im, self1, fs1) → get_map self1 fs1 = (Ok im, self1, fs1).
Proof.
  rewrite get_map_cases.
  assert (map self1 = Some im → get_map self1 fs1 = (Ok im, self1, fs1)) as Hmem.
  { intros Hm. unfold get_map. now rewrite Hm. }
  assert (render self fs = (Ok im, self1, fs1) → map self1 = Some im) as Hrender.
  { intros Hr. now apply render_Ok in Hr as (l1 & l2 & key & _ & _ & -> & _). }
  destruct (map self) as [m|] eqn:Hm.
  { intros [= <- <- <-]. now apply Hmem. }
  cbv zeta. destruct (locate _) as [key| |]; [|now auto|discriminate].
  destruct (cache_directory fs !! key) as [file|]; [|now auto].
  intros [= <- <- <-]. now apply Hmem.
Qed.



(** An instance that has read no config serves the file [None.png] when
    there is one. *)
Example get_map_unconfigured :
  get_map (H := Sample.builtins) (F := Sample.file_system) init
          (mkFiles (Some Examples.us_map) {[ "None.png"%string := Examples.icon ]})
  = (Ok Examples.icon, mk None None None None None (Some Examples.icon),
     mkFiles (Some Examples.us_map) {[ "None.png"%string := Examples.icon ]}).
Proof. vm_compute. reflexivity. Qed.

End AreaMapFacts.

(** ** Calls without a config, and the shape of the map *)

Module TileFacts.
Import MapManager.


(** The same on a manager whose reload failed for want of coordinates,
    when the cache directory has a file for the area: the getter serves
    the file, and writes the attribute and the file. *)
Example map_after_failed_reload :
  let '(r0, self0, fs0) :=
    reload_config (H := Sample.builtins) ("DWR_Area_ID=" ++ Examples.quoted "ABC123")
                  init (Examples.cached Examples.icon) in
  r0 = Raise (KeyError "Coordinates")
  ∧ has_config self0 = false
  ∧ map (H := Sample.builtins) (F := Sample.file_system) self0 fs0
    = (Ok Examples.icon, mk (Some (PyStr "ABC123")) None (Some Examples.icon),
       Examples.cached Examples.icon).
Proof. vm_compute. repeat split. Qed.











(** Reloading keeps every stored map in shape as well: it only forgets the
    map in memory. *)
Lemma reload_config_well_shaped `{Builtins}
      (text : string) (self self' : t) (fs fs' : files) (r : result ()) :
  reload_config text self fs = (r, self', fs') → well_shaped self fs →
  well_shaped self' fs'.
Proof.
  rewrite ReloadFacts.reload_config_cases. intros Hr [Hmem Hfiles].
  destruct (IHeartRadioConfig.load text) as [config|e];
    [|injection Hr as <- <- <-; now split].
  destruct (config !! AreaId.key) as [a|]; [|injection Hr as <- <- <-; now split].
  destruct (config !! Coordinates.key ≫= _) as [[v|e]|];
    injection Hr as <- <- <-; (split; [|exact Hfiles]); cbn; try exact Hmem.
  discriminate.
Qed.



End TileFacts.
(** ** IHeartRadioConfig: what the reader returns and when it raises *)

Module ReaderFacts.
Import IHeartRadioConfig.

Lemma drop_last_last (c : ascii) (s : string) :
  s ≠ EmptyString → s = (Text.drop_last s ++ String (Text.last c s) EmptyString)%string.
Proof.
  revert c. induction s as [|c' s IH]; intros c Hs; [contradiction|].
  destruct s as [|c'' s]; [reflexivity|].
  change (String c' (String c'' s)
          = String c' (Text.drop_last (String c'' s)
                       ++ String (Text.last c' (String c'' s)) EmptyString)%string).
  f_equal. apply IH. discriminate.
Qed.

Lemma is_quote_dec (c : ascii) :
  Ascii.eqb c Text.dquote || Ascii.eqb c Text.squote = true
  ↔ c = Text.dquote ∨ c = Text.squote.
Proof.
  rewrite orb_true_iff. split; intros [H | H]; [left | right | left | right];
    first [now apply Ascii.eqb_eq in H | now apply Ascii.eqb_eq].
Qed.

(** [strip_quotes] returns a string exactly for the strings that begin and
    end with the same quote character, the string made of one quote
    character included (it gives the empty string); the string returned is what
    lies between the two. It raises, [IndexError], exactly on the empty
    string. *)
Theorem strip_quotes_returns (s body : string) :
  (strip_quotes s = Ok (Some body) ↔
     ∃ q, (q = Text.dquote ∨ q = Text.squote)
          ∧ (s = String q EmptyString ∧ body = EmptyString ∨ s = Text.wrap q q body))
  ∧ (∀ e, strip_quotes s = Raise e ↔ s = EmptyString ∧ e = IndexError).
Proof.
  split.
  - split.
    + destruct s as [|c s']; [discriminate|]. unfold strip_quotes.
      destruct (Ascii.eqb_spec c (Text.last c s')) as [Hlast | Hlast]; [|discriminate].
      rewrite <- Hlast. cbn [andb].
      destruct (Ascii.eqb c Text.dquote || Ascii.eqb c Text.squote) eqn:Hq; [|discriminate].
      apply is_quote_dec in Hq. intros [= <-]. exists c. split; [exact Hq|].
      destruct s' as [|c' s'']; [now left|]. right.
      unfold Text.wrap, Text.slice_1_m1. f_equal.
      pose proof (drop_last_last c (String c' s'') ltac:(discriminate)) as Hd.
      rewrite <- Hlast in Hd. exact Hd.
    + intros (q & Hq & [[-> ->] | ->]).
      * destruct Hq as [-> | ->]; reflexivity.
      * now apply ConfigFacts.strip_quotes_wrapped.
  - intros e. split.
    + destruct s as [|c s']; [now intros [= <-]|]. unfold strip_quotes.
      destruct (_ || _); discriminate.
    + now intros [-> ->].
Qed.

Lemma strip_quotes_raises (s : string) :
  raises (strip_quotes s) = true ↔ s = EmptyString.
Proof.
  destruct s as [|c s']; [easy|]. unfold strip_quotes.
  destruct (_ || _); easy.
Qed.

Lemma strip_quotes_IndexError (s : string) (e : exn) :
  strip_quotes s = Raise e → e = IndexError.
Proof. intros H. now apply (proj2 (strip_quotes_returns s EmptyString)) in H as [_ ->]. Qed.

Lemma strip_parts_raises (parts : list string) :
  raises (strip_parts parts) = true ↔ EmptyString ∈ parts.
Proof.
  induction parts as [|part rest IH]; [cbn; split; [discriminate | inversion 1]|].
  cbn [strip_parts]. rewrite elem_of_cons.
  destruct (strip_quotes part) as [p|e] eqn:Hp.
  - assert (part ≠ EmptyString) as Hne.
    { intros ->. discriminate. }
    cbn. destruct (strip_parts rest) as [ps|e]; cbn in *.
    + split; [discriminate|]. intros [Heq | Hin]; [congruence | now apply IH].
    + split; [intros _; right; now apply IH | reflexivity].
  - cbn. split; [intros _; left|reflexivity].
    symmetry. apply strip_quotes_raises. now rewrite Hp.
Qed.

Lemma strip_parts_IndexError (parts : list string) (e : exn) :
  strip_parts parts = Raise e → e = IndexError.
Proof.
  induction parts as [|part rest IH]; [discriminate|].
  cbn [strip_parts]. destruct (strip_quotes part) as [p|e'] eqn:Hp.
  - cbn. destruct (strip_parts rest) as [ps|e']; [discriminate|].
    intros [= <-]. now apply IH.
  - intros [= <-]. now apply strip_quotes_IndexError in Hp.
Qed.

(** A string without the separator is its own single part. *)
Lemma split_absent (sep : ascii) (s : string) :
  Text.contains sep s = false → Text.split sep s = [s].
Proof.
  induction s as [|c s IH]; [reflexivity|].
  cbn [Text.contains Text.split]. intros Hc. apply orb_false_iff in Hc as [Hc Hs].
  rewrite Hc, (IH Hs). reflexivity.
Qed.

Lemma _parse_value_raises (value : string) :
  raises (_parse_value value) = true ↔ EmptyString ∈ Text.split ";" value.
Proof.
  unfold _parse_value. destruct (Text.contains ";" value) eqn:Hc.
  - rewrite <- strip_parts_raises. now destruct (strip_parts _).
  - rewrite (split_absent _ _ Hc), list_elem_of_singleton.
    destruct (strip_quotes value) as [p|e] eqn:Hp; cbn.
    + split; [discriminate|]. intros <-. discriminate.
    + split; [intros _|reflexivity]. symmetry. apply strip_quotes_raises. now rewrite Hp.
Qed.

Lemma _parse_value_IndexError (value : string) (e : exn) :
  _parse_value value = Raise e → e = IndexError.
Proof.
  unfold _parse_value. destruct (Text.contains ";" value).
  - destruct (strip_parts _) as [ps|e'] eqn:Hp; [discriminate|].
    intros [= <-]. now apply strip_parts_IndexError in Hp.
  - destruct (strip_quotes value) as [p|e'] eqn:Hp; [discriminate|].
    intros [= <-]. now apply strip_quotes_IndexError in Hp.
Qed.

Lemma load_lines_raises (res : gmap string pyval) (lines : list string) :
  raises (load_lines res lines) = true ↔
  ∃ line key val, line ∈ lines ∧ key_val_re line = Some (key, val)
                  ∧ EmptyString ∈ Text.split ";" val.
Proof.
  revert res. induction lines as [|line rest IH]; intros res.
  { cbn. split; [discriminate|]. intros (? & ? & ? & Hin & _). inversion Hin. }
  cbn [load_lines]. destruct (key_val_re line) as [[key val]|] eqn:Hkv.
  - destruct (_parse_value val) as [v|e] eqn:Hv.
    + cbn. rewrite IH. split.
      * intros (l & k & x & Hin & Hl & Hx). exists l, k, x. rewrite elem_of_cons. auto.
      * intros (l & k & x & Hin & Hl & Hx). apply elem_of_cons in Hin as [-> | Hin].
        -- rewrite Hkv in Hl. injection Hl as <- <-.
           apply _parse_value_raises in Hx. rewrite Hv in Hx. discriminate.
        -- exists l, k, x. auto.
    + cbn. split; [intros _|reflexivity].
      exists line, key, val. rewrite elem_of_cons. split; [now left|]. split; [exact Hkv|].
      apply _parse_value_raises. now rewrite Hv.
  - rewrite IH. split.
    + intros (l & k & x & Hin & Hl & Hx). exists l, k, x. rewrite elem_of_cons. auto.
    + intros (l & k & x & Hin & Hl & Hx). apply elem_of_cons in Hin as [-> | Hin].
      * congruence.
      * exists l, k, x. auto.
Qed.

Lemma load_lines_IndexError (res : gmap string pyval) (lines : list string) (e : exn) :
  load_lines res lines = Raise e → e = IndexError.
Proof.
  revert res. induction lines as [|line rest IH]; intros res; [discriminate|].
  cbn [load_lines]. destruct (key_val_re line) as [[key val]|]; [|apply IH].
  destruct (_parse_value val) as [v|e'] eqn:Hv; cbn; [apply IH|].
  intros [= <-]. now apply _parse_value_IndexError in Hv.
Qed.

(** [load] raises exactly when some line that matches [key=value] has an
    empty value or an empty part between semicolons (a value that ends in
    a semicolon, say), and what it raises is [IndexError]. *)
Theorem load_raises (text : string) :
  (raises (load text) = true ↔
     ∃ line key val, line ∈ Text.splitlines text ∧ key_val_re line = Some (key, val)
                     ∧ EmptyString ∈ Text.split ";" val)
  ∧ (∀ e, load text = Raise e → e = IndexError).
Proof. split; [apply load_lines_raises | apply load_lines_IndexError]. Qed.

(** The value [load] records under a key, seen from the loop: a key no line
    assigns keeps what it had, and a key assigned by a line that no later
    line assigns again holds the parsed value of that line. *)
Lemma load_lines_lookup (res config : gmap string pyval) (lines : list string)
      (key : string) :
  load_lines res lines = Ok config →
  ((∀ line val, line ∈ lines → key_val_re line ≠ Some (key, val)) →
   config !! key = res !! key)
  ∧ (∀ before line after val,
       lines = before ++ line :: after →
       key_val_re line = Some (key, val) →
       (∀ l v, l ∈ after → key_val_re l ≠ Some (key, v)) →
       ∃ v, _parse_value val = Ok v ∧ config !! key = Some v).
Proof.
  revert res. induction lines as [|line0 rest IH]; intros res Hload.
  { injection Hload as <-. split; [reflexivity|].
    intros [|? ?] ? ? ? Heq; discriminate. }
  cbn [load_lines] in Hload.
  assert (∀ res',
            load_lines res' rest = Ok config →
            (res' !! key = res !! key ∨ ∃ val, key_val_re line0 = Some (key, val)) →
            (∀ val v, key_val_re line0 = Some (key, val) → _parse_value val = Ok v →
                      res' !! key = Some v) →
            ((∀ line val, line ∈ line0 :: rest → key_val_re line ≠ Some (key, val)) →
             config !! key = res !! key)
            ∧ (∀ before line after val,
                 line0 :: rest = before ++ line :: after →
                 key_val_re line = Some (key, val) →
                 (∀ l v, l ∈ after → key_val_re l ≠ Some (key, v)) →
                 ∃ v, _parse_value val = Ok v ∧ config !! key = Some v)) as Hstep.
  { intros res' Hrest Hsame Hset. destruct (IH res' Hrest) as [IHnone IHlast]. split.
    - intros Hno. rewrite IHnone.
      + destruct Hsame as [-> | [val Hval]]; [reflexivity|].
        exfalso. apply (Hno line0 val); [left | exact Hval].
      + intros line val Hin. apply Hno. now right.
    - intros [|b before] line after val Heq Hkv Hafter.
      + injection Heq as <- <-.
        destruct (_parse_value val) as [v|e] eqn:Hv.
        * exists v. split; [reflexivity|]. rewrite (IHnone Hafter).
          exact (Hset val v Hkv Hv).
        * rewrite Hkv in Hload. cbn in Hload. rewrite Hv in Hload. discriminate.
      + injection Heq as <- ->. eapply IHlast; eauto. }
  destruct (key_val_re line0) as [[k x]|] eqn:Hk0.
  - destruct (_parse_value x) as [v|e] eqn:Hv; [|discriminate]. cbn in Hload.
    apply (Hstep _ Hload).
    + destruct (decide (k = key)) as [-> | Hne]; [right; eauto|].
      left. now apply lookup_insert_ne.
    + intros val v' [= -> ->] Hv'. rewrite Hv in Hv'. injection Hv' as <-.
      apply lookup_insert_eq.
  - apply (Hstep _ Hload); [now left | discriminate].
Qed.

(** In the config [load] returns, a key holds the parsed value of the last
    line that assigns it, and a key that no line assigns is absent. *)
Theorem load_last_assignment (text : string) (config : gmap string pyval) (key : string) :
  load text = Ok config →
  ((∀ line val, line ∈ Text.splitlines text → key_val_re line ≠ Some (key, val)) →
   config !! key = None)
  ∧ (∀ before line after val,
       Text.splitlines text = before ++ line :: after →
       key_val_re line = Some (key, val) →
       (∀ l v, l ∈ after → key_val_re l ≠ Some (key, v)) →
       ∃ v, _parse_value val = Ok v ∧ config !! key = Some v).
Proof.
  intros Hload. destruct (load_lines_lookup _ _ _ key Hload) as [Hnone Hlast].
  split; [|exact Hlast]. intros Hno. now rewrite (Hnone Hno), lookup_empty.
Qed.

(** [load_last_assignment] on a text that assigns [a] twice and never
    assigns [c]. *)
Lemma load_last_assignment_witness :
  let config : gmap string pyval :=
    <[ "a"%string := PyStr "2" ]> (<[ "b"%string := PyStr "x" ]> ∅) in
  config !! "c"%string = None
  ∧ ∃ v, _parse_value (Examples.quoted "2") = Ok v ∧ config !! "a"%string = Some v.
Proof.
  intros config.
  assert (load Examples.twice_text = Ok config) as Hload by (vm_compute; reflexivity).
  split.
  - apply (proj1 (load_last_assignment Examples.twice_text config "c" Hload)).
    intros line val Hin. vm_compute in Hin.
    repeat (apply elem_of_cons in Hin as [-> | Hin]); try (vm_compute; discriminate).
    inversion Hin.
  - apply (proj2 (load_last_assignment Examples.twice_text config "a" Hload)
             [("a=" ++ Examples.quoted "1")%string; ("b=" ++ Examples.quoted "x")%string]
             ("a=" ++ Examples.quoted "2")%string [] (Examples.quoted "2")).
    + vm_compute. reflexivity.
    + vm_compute. reflexivity.
    + intros l v Hin. inversion Hin.
Defined.

(** Strings and their characters. *)
Lemma append_cons (x : ascii) (a b : string) :
  (String x a ++ b)%string = String x (a ++ b)%string.
Proof. reflexivity. Qed.

Lemma append_assoc (a b c : string) : ((a ++ b) ++ c = a ++ (b ++ c))%string.
Proof.
  induction a as [|x a IH]; [reflexivity|].
  now rewrite !append_cons, IH.
Qed.

Lemma append_empty_r (a : string) : (a ++ EmptyString)%string = a.
Proof.
  induction a as [|x a IH]; [reflexivity|].
  now rewrite append_cons, IH.
Qed.

Lemma text_app (l1 l2 : list ascii) :
  string_of_list_ascii (l1 ++ l2)
  = (string_of_list_ascii l1 ++ string_of_list_ascii l2)%string.
Proof.
  induction l1 as [|x l1 IH]; [reflexivity|].
  cbn [app string_of_list_ascii]. now rewrite append_cons, IH.
Qed.

Lemma text_rev_cons (c : ascii) (run : list ascii) :
  string_of_list_ascii (rev (c :: run))
  = (string_of_list_ascii (rev run) ++ String c EmptyString)%string.
Proof. cbn [rev]. apply text_app. Qed.

(** [word s]: every character of [s] is a word character. *)
Lemma word_cons (c : ascii) (s : string) :
  forallb Text.is_word (list_ascii_of_string (String c s))
  = Text.is_word c && forallb Text.is_word (list_ascii_of_string s).
Proof. reflexivity. Qed.

Lemma is_word_eq : Text.is_word "=" = false.
Proof. reflexivity. Qed.

(** Where the search finds its match, with a run of word characters already
    read. *)
Lemma key_val_from_Some (run : list ascii) (line key val : string) :
  IHeartRadioConfig.key_val_from run line = Some (key, val) →
  key ≠ EmptyString
  ∧ ∃ pre k,
      line = (pre ++ k ++ "=" ++ val)%string
      ∧ forallb Text.is_word (list_ascii_of_string k) = true
      ∧ ((pre = EmptyString ∧ key = (string_of_list_ascii (rev run) ++ k)%string)
         ∨ (key = k ∧ ∃ pre' c, pre = (pre' ++ String c EmptyString)%string
                                 ∧ Text.is_word c = false)).
Proof.
  revert run. induction line as [|c rest IH]; intros run; [discriminate|].
  cbn [key_val_from].
  assert (∀ c, Text.is_word c = false →
               key_val_from [] rest = Some (key, val) →
               key ≠ EmptyString
               ∧ ∃ pre k,
                   String c rest = (pre ++ k ++ "=" ++ val)%string
                   ∧ forallb Text.is_word (list_ascii_of_string k) = true
                   ∧ ((pre = EmptyString
                       ∧ key = (string_of_list_ascii (rev run) ++ k)%string)
                      ∨ (key = k ∧ ∃ pre' c', pre = (pre' ++ String c' EmptyString)%string
                                              ∧ Text.is_word c' = false))) as Hskip.
  { intros c0 Hc0 Hrest. apply IH in Hrest as (Hkey & pre & k & -> & Hk & Hcase).
    split; [exact Hkey|]. exists (String c0 pre), k. split; [reflexivity|].
    split; [exact Hk|]. right. destruct Hcase as [[-> Hk'] | [-> (pre' & c' & -> & Hc')]].
    - split; [exact Hk'|]. now exists EmptyString, c0.
    - split; [reflexivity|]. now exists (String c0 pre'), c'. }
  destruct (Text.is_word c) eqn:Hc.
  - intros Hrest. apply IH in Hrest as (Hkey & pre & k & -> & Hk & Hcase).
    split; [exact Hkey|].
    destruct Hcase as [[-> Hk'] | [-> (pre' & c' & -> & Hc')]].
    + exists EmptyString, (String c k). split; [reflexivity|].
      split; [rewrite word_cons, Hc; exact Hk|]. left. split; [reflexivity|].
      rewrite Hk', text_rev_cons, append_assoc. reflexivity.
    + exists (String c (pre' ++ String c' EmptyString)), k. split; [reflexivity|].
      split; [exact Hk|]. right. split; [reflexivity|]. now exists (String c pre'), c'.
  - destruct (Ascii.eqb_spec c "="%char) as [-> | Hne].
    + destruct run as [|r run'] eqn:Hrun.
      * now apply Hskip.
      * intros [= <- <-]. split.
        { rewrite text_app. now destruct (string_of_list_ascii (rev run')). }
        exists EmptyString, EmptyString. split; [reflexivity|]. split; [reflexivity|].
        left. split; [reflexivity|]. now rewrite append_empty_r.
    + now apply Hskip.
Qed.

Lemma key_val_from_word (run : list ascii) (k val : string) :
  forallb Text.is_word (list_ascii_of_string k) = true →
  run ≠ [] ∨ k ≠ EmptyString →
  IHeartRadioConfig.key_val_from run (k ++ "=" ++ val)
  = Some ((string_of_list_ascii (rev run) ++ k)%string, val).
Proof.
  revert run. induction k as [|c k IH]; intros run Hk Hne.
  - destruct Hne as [Hne | Hne]; [|contradiction].
    cbn. destruct run; [contradiction|]. now rewrite append_empty_r.
  - rewrite word_cons in Hk. apply andb_true_iff in Hk as [Hc Hk].
    change ((String c k ++ "=" ++ val)%string) with (String c (k ++ "=" ++ val)%string).
    cbn [key_val_from]. rewrite Hc, IH by (auto; left; discriminate).
    now rewrite text_rev_cons, append_assoc.
Qed.

Lemma key_val_re_word (k val : string) :
  k ≠ EmptyString → forallb Text.is_word (list_ascii_of_string k) = true →
  key_val_re (k ++ "=" ++ val) = Some (k, val).
Proof. intros Hk Hw. unfold key_val_re. rewrite key_val_from_word by auto. reflexivity. Qed.

(** The search [(\w+)=(.*?)$] of [load]. When it matches, the key is not
    empty and is a whole run of word characters (the character before it,
    if any, is not one), an [=] follows it, and the value is all the rest
    of the line, further [=] included. A line that starts with word
    characters and an [=] is matched there. *)
Theorem key_val_re_match (line key val : string) :
  (key_val_re line = Some (key, val) →
     key ≠ EmptyString
     ∧ forallb Text.is_word (list_ascii_of_string key) = true
     ∧ ∃ pre, line = (pre ++ key ++ "=" ++ val)%string
              ∧ (pre = EmptyString
                 ∨ ∃ pre' c, pre = (pre' ++ String c EmptyString)%string
                             ∧ Text.is_word c = false))
  ∧ (key ≠ EmptyString →
     forallb Text.is_word (list_ascii_of_string key) = true →
     key_val_re (key ++ "=" ++ val) = Some (key, val)).
Proof.
  split.
  - intros Hm. apply key_val_from_Some in Hm as (Hkey & pre & k & -> & Hk & Hcase).
    split; [exact Hkey|].
    destruct Hcase as [[-> ->] | [-> Hpre]]; cbn [rev string_of_list_ascii append].
    + split; [exact Hk|]. exists EmptyString. auto.
    + split; [exact Hk|]. exists pre. auto.
  - apply key_val_re_word.
Qed.

(** [key_val_re_match] on the line [a=b=c], and on the key [DWR_Area_ID]. *)
Lemma key_val_re_match_witness :
  ("a"%string ≠ EmptyString
   ∧ forallb Text.is_word (list_ascii_of_string "a") = true
   ∧ ∃ pre, "a=b=c"%string = (pre ++ "a" ++ "=" ++ "b=c")%string
            ∧ (pre = EmptyString
               ∨ ∃ pre' c, pre = (pre' ++ String c EmptyString)%string
                           ∧ Text.is_word c = false))
  ∧ key_val_re ("DWR_Area_ID" ++ "=" ++ "x y") = Some ("DWR_Area_ID"%string, "x y"%string).
Proof.
  split.
  - apply (proj1 (key_val_re_match "a=b=c" "a" "b=c")). reflexivity.
  - apply (proj2 (key_val_re_match "" "DWR_Area_ID" "x y")); [discriminate | reflexivity].
Defined.

End ReaderFacts.

(** ** From a config text to the manager *)

Module IngestFacts.
Import ReaderFacts.

Lemma contains_app (c : ascii) (a b : string) :
  Text.contains c (a ++ b) = Text.contains c a || Text.contains c b.
Proof.
  induction a as [|x a IH]; [reflexivity|].
  rewrite append_cons. cbn [Text.contains]. now rewrite IH, orb_assoc.
Qed.

Lemma split_app (sep : ascii) (a b : string) :
  Text.contains sep a = false →
  Text.split sep (a ++ String sep b) = a :: Text.split sep b.
Proof.
  induction a as [|x a IH]; intros Ha.
  - change (EmptyString ++ String sep b)%string with (String sep b).
    cbn [Text.split]. now rewrite Ascii.eqb_refl.
  - cbn [Text.contains] in Ha. apply orb_false_iff in Ha as [Hx Ha].
    rewrite append_cons. cbn [Text.split]. now rewrite Hx, (IH Ha).
Qed.

(** The two parts of [a,b]. *)
Lemma split_pair (a b : string) :
  Text.contains "," a = false → Text.contains "," b = false →
  Text.split "," (a ++ "," ++ b) = [a; b].
Proof.
  intros Ha Hb. change (a ++ "," ++ b)%string with (a ++ String "," b)%string.
  now rewrite (split_app _ _ _ Ha), (split_absent _ _ Hb).
Qed.

(** [Coordinates.parse] on two pairs [a,b] and [c,d], each between two
    characters: when [float] reads the four parts, the value has [a] as
    [lat_top], [b] as [lon_left], [c] as [lat_bottom] and [d] as
    [lon_right]; otherwise [parse] raises what [float] raises first, read
    in that order. *)
Theorem parse_pairs `{Builtins} (x y x' y' : ascii) (a b c d : string) :
  Text.contains "," a = false → Text.contains "," b = false →
  Text.contains "," c = false → Text.contains "," d = false →
  match Coordinates.parse
          (PyList [Some (Text.wrap x y (a ++ "," ++ b));
                   Some (Text.wrap x' y' (c ++ "," ++ d))]) with
  | Ok v =>
      py_float a = Ok (Coordinates.lat_top v) ∧ py_float b = Ok (Coordinates.lon_left v)
      ∧ py_float c = Ok (Coordinates.lat_bottom v)
      ∧ py_float d = Ok (Coordinates.lon_right v)
  | Raise e =>
      py_float a = Raise e
      ∨ (raises (py_float a) = false ∧ py_float b = Raise e)
      ∨ (raises (py_float a) = false ∧ raises (py_float b) = false ∧ py_float c = Raise e)
      ∨ (raises (py_float a) = false ∧ raises (py_float b) = false
         ∧ raises (py_float c) = false ∧ py_float d = Raise e)
  end.
Proof.
  intros Ha Hb Hc Hd. unfold Text.wrap.
  rewrite CoordinatesFacts.parse_two_strings, !TextFacts.slice_1_m1_wrapped.
  rewrite (split_pair _ _ Ha Hb), (split_pair _ _ Hc Hd). cbn.
  destruct (py_float a) as [f1|e1]; cbn; [|now left].
  destruct (py_float b) as [f2|e2]; cbn; [|right; now left].
  destruct (py_float c) as [f3|e3]; cbn; [|right; right; now left].
  destruct (py_float d) as [f4|e4]; cbn; [auto|]. right; right; right. auto.
Qed.

(** [parse_pairs] on the corners of the specification's example. *)
Lemma parse_pairs_witness :
  Sample.float_of_string "40.5" = Ok 40.5%float
  ∧ Sample.float_of_string "-75.1" = Ok (-75.1)%float
  ∧ Sample.float_of_string "39.5" = Ok 39.5%float
  ∧ Sample.float_of_string "-74.1" = Ok (-74.1)%float.
Proof.
  exact (parse_pairs (H := Sample.builtins) "(" ")" "(" ")" "40.5" "-75.1" "39.5" "-74.1"
           eq_refl eq_refl eq_refl eq_refl).
Defined.

(** [parse] on two pairs, as the four calls of [float]. *)
Lemma parse_pairs_eq `{Builtins} (x y x' y' : ascii) (a b c d : string) :
  Text.contains "," a = false → Text.contains "," b = false →
  Text.contains "," c = false → Text.contains "," d = false →
  Coordinates.parse
    (PyList [Some (Text.wrap x y (a ++ "," ++ b)); Some (Text.wrap x' y' (c ++ "," ++ d))])
  = (f1 ← py_float a; f2 ← py_float b; f3 ← py_float c; f4 ← py_float d;
     Ok ((f1, f2), (f3, f4))).
Proof.
  intros Ha Hb Hc Hd. unfold Text.wrap.
  rewrite CoordinatesFacts.parse_two_strings, !TextFacts.slice_1_m1_wrapped.
  rewrite (split_pair _ _ Ha Hb), (split_pair _ _ Hc Hd). reflexivity.
Qed.

Lemma chars_app (a b : string) :
  list_ascii_of_string (a ++ b) = list_ascii_of_string a ++ list_ascii_of_string b.
Proof.
  induction a as [|x a IH]; [reflexivity|].
  rewrite append_cons. cbn [list_ascii_of_string app]. now rewrite IH.
Qed.

Lemma clean_app (a b : string) :
  Examples.clean (a ++ b) = Examples.clean a && Examples.clean b.
Proof. unfold Examples.clean. now rewrite chars_app, forallb_app. Qed.

Lemma clean_semicolon (s : string) : Examples.clean s = true → Text.contains ";" s = false.
Proof.
  unfold Examples.clean. induction s as [|c s IH]; [reflexivity|].
  cbn [list_ascii_of_string forallb Text.contains]. intros Hs.
  apply andb_true_iff in Hs as [Hc Hs]. apply andb_true_iff in Hc as [Hc _].
  apply negb_true_iff in Hc. now rewrite Hc, (IH Hs).
Qed.

Lemma clean_unbroken (s : string) : Examples.clean s = true → Examples.unbroken s = true.
Proof.
  unfold Examples.clean, Examples.unbroken. induction (list_ascii_of_string s) as [|c l IH];
    [reflexivity|].
  cbn [forallb]. intros Hs. apply andb_true_iff in Hs as [Hc Hs].
  apply andb_true_iff in Hc as [_ Hc]. now rewrite Hc, (IH Hs).
Qed.

(** Reading a stretch without line boundary only extends the current
    line. *)
Lemma splitlines_from_unbroken (cur : list ascii) (l rest : string) :
  Examples.unbroken l = true →
  Text.splitlines_from cur (l ++ rest)
  = Text.splitlines_from (rev (list_ascii_of_string l) ++ cur) rest.
Proof.
  unfold Examples.unbroken. revert cur. induction l as [|c l IH]; intros cur Hl;
    [reflexivity|].
  cbn [list_ascii_of_string forallb] in Hl. apply andb_true_iff in Hl as [Hc Hl].
  apply negb_true_iff in Hc.
  rewrite append_cons. cbn [Text.splitlines_from]. rewrite Hc, (IH _ Hl).
  cbn [list_ascii_of_string rev]. now rewrite <- app_assoc.
Qed.

Lemma text_rev_chars (l : string) :
  string_of_list_ascii (rev (rev (list_ascii_of_string l) ++ [])) = l.
Proof. now rewrite app_nil_r, rev_involutive, string_of_list_ascii_of_string. Qed.

(** Two lines joined by a line feed are read back as the two lines. *)
Lemma splitlines_two (l1 l2 : string) :
  Examples.unbroken l1 = true → Examples.unbroken l2 = true → l2 ≠ EmptyString →
  Text.splitlines (l1 ++ Examples.newline ++ l2) = [l1; l2].
Proof.
  intros H1 H2 Hne. unfold Text.splitlines.
  rewrite (splitlines_from_unbroken _ _ _ H1).
  change (Examples.newline ++ l2)%string with (String Text.LF l2).
  cbn [Text.splitlines_from]. change (Text.is_linebreak Text.LF) with true.
  change (Ascii.eqb Text.LF Text.CR) with false. cbv iota. rewrite text_rev_chars. f_equal.
  rewrite <- (append_empty_r l2) at 1. rewrite (splitlines_from_unbroken _ _ _ H2).
  cbn [Text.splitlines_from].
  destruct (rev (list_ascii_of_string l2) ++ []) as [|c l] eqn:Hl.
  - exfalso. apply Hne. rewrite <- (text_rev_chars l2), Hl. reflexivity.
  - rewrite <- Hl. now rewrite text_rev_chars.
Qed.

Lemma quoted_clean (s : string) :
  Examples.clean s = true → Examples.clean (Examples.quoted s) = true.
Proof.
  intros Hs. unfold Examples.quoted, Text.wrap.
  change (String Text.dquote (s ++ String Text.dquote EmptyString))
    with (String Text.dquote EmptyString ++ s ++ String Text.dquote EmptyString)%string.
  now rewrite !clean_app, Hs.
Qed.

Lemma pair_clean (a b : string) :
  Examples.clean a = true → Examples.clean b = true →
  Examples.clean (Text.wrap "(" ")" (a ++ "," ++ b)) = true.
Proof.
  intros Ha Hb. unfold Text.wrap.
  change (String "(" ((a ++ "," ++ b) ++ String ")" EmptyString))%string
    with ("(" ++ (a ++ "," ++ b) ++ ")")%string.
  now rewrite !clean_app, Ha, Hb.
Qed.

Lemma unbroken_app (a b : string) :
  Examples.unbroken (a ++ b) = Examples.unbroken a && Examples.unbroken b.
Proof. unfold Examples.unbroken. now rewrite chars_app, forallb_app. Qed.

Lemma quoted_semicolon (s : string) :
  Text.contains ";" s = false → Text.contains ";" (Examples.quoted s) = false.
Proof.
  intros Hs. unfold Examples.quoted, Text.wrap.
  change (String Text.dquote (s ++ String Text.dquote EmptyString))
    with (String Text.dquote EmptyString ++ s ++ String Text.dquote EmptyString)%string.
  now rewrite !contains_app, Hs.
Qed.

Lemma strip_quotes_quoted (s : string) :
  IHeartRadioConfig.strip_quotes (Examples.quoted s) = Ok (Some s).
Proof. apply ConfigFacts.strip_quotes_wrapped. now left. Qed.

Lemma _parse_value_one (s : string) :
  Text.contains ";" s = false →
  IHeartRadioConfig._parse_value (Examples.quoted s) = Ok (PyStr s).
Proof.
  intros Hs. unfold IHeartRadioConfig._parse_value.
  now rewrite (quoted_semicolon _ Hs), strip_quotes_quoted.
Qed.

Lemma _parse_value_two (s1 s2 : string) :
  Text.contains ";" s1 = false → Text.contains ";" s2 = false →
  IHeartRadioConfig._parse_value (Examples.quoted s1 ++ ";" ++ Examples.quoted s2)
  = Ok (PyList [Some s1; Some s2]).
Proof.
  intros H1 H2. unfold IHeartRadioConfig._parse_value.
  rewrite contains_app. change (Text.contains ";" (";" ++ Examples.quoted s2)) with true.
  rewrite orb_true_r.
  change (Examples.quoted s1 ++ ";" ++ Examples.quoted s2)%string
    with (Examples.quoted s1 ++ String ";" (Examples.quoted s2))%string.
  rewrite (split_app _ _ _ (quoted_semicolon _ H1)).
  rewrite (split_absent _ _ (quoted_semicolon _ H2)).
  cbn [IHeartRadioConfig.strip_parts]. now rewrite !strip_quotes_quoted.
Qed.

(** A value between double quotes is recorded without them, and two such
    values joined by a semicolon are recorded as the list of the two,
    provided no semicolon occurs inside. A semicolon inside the quotes
    splits the value all the same, and the two parts, each with one quote
    left, are stripped on their own. *)
Theorem _parse_value_quoted (s1 s2 : string) :
  Text.contains ";" s1 = false → Text.contains ";" s2 = false →
  IHeartRadioConfig._parse_value (Examples.quoted s1) = Ok (PyStr s1)
  ∧ IHeartRadioConfig._parse_value (Examples.quoted s1 ++ ";" ++ Examples.quoted s2)
    = Ok (PyList [Some s1; Some s2])
  ∧ IHeartRadioConfig._parse_value (Examples.quoted (s1 ++ ";" ++ s2))
    = PyList <$> IHeartRadioConfig.strip_parts
                   [String Text.dquote s1; (s2 ++ String Text.dquote EmptyString)%string].
Proof.
  intros H1 H2. split; [now apply _parse_value_one|]. split; [now apply _parse_value_two|].
  unfold IHeartRadioConfig._parse_value, Examples.quoted, Text.wrap.
  change (String Text.dquote ((s1 ++ ";" ++ s2) ++ String Text.dquote EmptyString))%string
    with (String Text.dquote EmptyString
          ++ (s1 ++ ";" ++ s2) ++ String Text.dquote EmptyString)%string.
  rewrite !contains_app. change (Text.contains ";" (";" ++ s2)) with true.
  rewrite orb_true_r, orb_true_l, orb_true_r.
  rewrite !append_assoc.
  change (String Text.dquote EmptyString
          ++ s1 ++ ";" ++ s2 ++ String Text.dquote EmptyString)%string
    with (String Text.dquote s1 ++ String ";" (s2 ++ String Text.dquote EmptyString))%string.
  rewrite split_app.
  2:{ cbn [Text.contains]. now rewrite H1. }
  rewrite split_absent; [reflexivity|].
  now rewrite contains_app, H2.
Qed.

(** [_parse_value_quoted] on [ABC123], and on the two corners. *)
Lemma _parse_value_quoted_witness :
  IHeartRadioConfig._parse_value (Examples.quoted "ABC123") = Ok (PyStr "ABC123")
  ∧ IHeartRadioConfig._parse_value
      (Examples.quoted "(40.5,-75.1)" ++ ";" ++ Examples.quoted "(39.5,-74.1)")
    = Ok (PyList [Some "(40.5,-75.1)"; Some "(39.5,-74.1)"]%string).
Proof.
  split.
  - exact (proj1 (_parse_value_quoted "ABC123" "" eq_refl eq_refl)).
  - exact (proj1 (proj2 (_parse_value_quoted "(40.5,-75.1)" "(39.5,-74.1)" eq_refl eq_refl))).
Defined.

(** What [load] makes of the config text of an area. *)
Lemma load_config_for (id a b c d : string) :
  Examples.clean id = true → Examples.clean a = true → Examples.clean b = true →
  Examples.clean c = true → Examples.clean d = true →
  IHeartRadioConfig.load (Examples.config_for id a b c d)
  = Ok (<[ Coordinates.key :=
             PyList [Some (Text.wrap "(" ")" (a ++ "," ++ b));
                     Some (Text.wrap "(" ")" (c ++ "," ++ d))] ]>
          (<[ AreaId.key := PyStr id ]> ∅)).
Proof.
  intros Hid Ha Hb Hc Hd.
  pose proof (pair_clean _ _ Ha Hb) as Hp1.
  pose proof (pair_clean _ _ Hc Hd) as Hp2.
  set (p1 := Text.wrap "(" ")" (a ++ "," ++ b)) in *.
  set (p2 := Text.wrap "(" ")" (c ++ "," ++ d)) in *.
  unfold IHeartRadioConfig.load, Examples.config_for. fold p1 p2.
  change ("DWR_Area_ID=" ++ Examples.quoted id ++ Examples.newline
          ++ "Coordinates=" ++ Examples.quoted p1 ++ ";" ++ Examples.quoted p2)%string
    with (("DWR_Area_ID" ++ "=" ++ Examples.quoted id) ++ Examples.newline
          ++ ("Coordinates" ++ "=" ++ Examples.quoted p1 ++ ";" ++ Examples.quoted p2))%string.
  rewrite splitlines_two.
  - cbn [IHeartRadioConfig.load_lines].
    rewrite !ReaderFacts.key_val_re_word by (reflexivity || discriminate).
    rewrite (_parse_value_one _ (clean_semicolon _ Hid)).
    cbn [mbind result_bind].
    rewrite (_parse_value_two _ _ (clean_semicolon _ Hp1) (clean_semicolon _ Hp2)).
    reflexivity.
  - rewrite !unbroken_app, (clean_unbroken _ (quoted_clean _ Hid)). reflexivity.
  - rewrite !unbroken_app, (clean_unbroken _ (quoted_clean _ Hp1)),
      (clean_unbroken _ (quoted_clean _ Hp2)). reflexivity.
  - discriminate.
Qed.

(** Reloading from the config text of an area: when [float] reads the four
    numbers, the manager holds the area id and the four coordinates, and no
    map; when it does not, [reload_config] raises what [float] raised,
    with the area id already replaced. The files are as before. *)
Theorem reload_config_for `{Builtins} (id a b c d : string) (self : MapManager.t) (fs : files) :
  Examples.clean id = true →
  Examples.clean a = true → Text.contains "," a = false →
  Examples.clean b = true → Text.contains "," b = false →
  Examples.clean c = true → Text.contains "," c = false →
  Examples.clean d = true → Text.contains "," d = false →
  MapManager.reload_config (Examples.config_for id a b c d) self fs
  = match (f1 ← py_float a; f2 ← py_float b; f3 ← py_float c; f4 ← py_float d;
           Ok ((f1, f2), (f3, f4))) with
    | Ok v => (Ok (), MapManager.mk (Some (PyStr id)) (Some v) None, fs)
    | Raise e =>
        (Raise e,
         MapManager.mk (Some (PyStr id)) (MapManager.coordinates self) (MapManager._map self),
         fs)
    end.
Proof.
  intros Hid Ha Ha' Hb Hb' Hc Hc' Hd Hd'.
  rewrite ReloadFacts.reload_config_cases, (load_config_for _ _ _ _ _ Hid Ha Hb Hc Hd).
  rewrite lookup_insert_ne by discriminate. rewrite !lookup_insert_eq.
  cbn [mbind option_bind]. rewrite (parse_pairs_eq _ _ _ _ _ _ _ _ Ha' Hb' Hc' Hd').
  destruct (_ ≫= _); reflexivity.
Qed.

(** [reload_config_for] on the specification's example. *)
Lemma reload_config_for_witness :
  MapManager.reload_config (H := Sample.builtins)
    (Examples.config_for "ABC123" "40.5" "-75.1" "39.5" "-74.1")
    Examples.old_manager Examples.fresh_files
  = (Ok (),
     MapManager.mk (Some (PyStr "ABC123")) (Some ((40.5, -75.1), (39.5, -74.1))%float) None,
     Examples.fresh_files).
Proof.
  exact (reload_config_for (H := Sample.builtins) "ABC123" "40.5" "-75.1" "39.5" "-74.1"
           Examples.old_manager Examples.fresh_files
           eq_refl eq_refl eq_refl eq_refl eq_refl eq_refl eq_refl eq_refl eq_refl).
Defined.

End IngestFacts.


(** ** Paths and cache file names *)

Module PathFacts.

(** Splitting at a separator splits what is before it and what is after
    it. *)
Lemma split_sep (sep : ascii) (a b : string) :
  Text.split sep (a ++ String sep b) = Text.split sep a ++ Text.split sep b.
Proof.
  induction a as [|c a IH].
  - change (EmptyString ++ String sep b)%string with (String sep b).
    cbn [Text.split]. now rewrite Ascii.eqb_refl.
  - rewrite ReaderFacts.append_cons. cbn [Text.split]. rewrite IH.
    destruct (Ascii.eqb c sep); [reflexivity|].
    pose proof (TextFacts.split_nonempty sep a) as Hne.
    destruct (Text.split sep a) as [|piece pieces]; [contradiction | reflexivity].
Qed.

(** A name that ends in [.png] after a first character other than a dot
    has the extension [.png]. *)
Lemma splitext_png (c : ascii) (s : string) :
  c ≠ "."%char → Paths.splitext (String c s ++ ".png") = ".png"%string.
Proof.
  intros Hc. unfold Paths.splitext. rewrite ReaderFacts.append_cons.
  assert (Paths.lstrip_dots (String c (s ++ ".png")) = String c (s ++ ".png")) as ->.
  { cbn [Paths.lstrip_dots].
    destruct c as [[] [] [] [] [] [] [] []]; try reflexivity. contradiction. }
  rewrite <- ReaderFacts.append_cons, IngestFacts.contains_app.
  change (Text.contains "." ".png") with true. rewrite orb_true_r.
  change ".png"%string with (String "." "png"). rewrite split_sep.
  change (Text.split "." "png") with ["png"%string]. now rewrite last_last.
Qed.

(** A name without a slash is a path of one component. *)
Lemma Path_plain (c : ascii) (s : string) :
  Text.contains "/" (String c s) = false → String c s ≠ "."%string →
  Paths.Path (String c s) = [String c s].
Proof.
  intros Hs Hdot. unfold Paths.Path.
  rewrite (ReaderFacts.split_absent _ _ Hs).
  assert (Paths.root (String c s) = []) as ->.
  { cbn [Text.contains] in Hs. apply orb_false_iff in Hs as [Hc _].
    destruct (Ascii.eqb_spec c "/") as [-> | Hne]; [discriminate|].
    unfold Paths.root.
    destruct c as [[] [] [] [] [] [] [] []]; try reflexivity. contradiction. }
  cbn [app List.filter]. unfold Paths.kept.
  destruct (String.eqb_spec (String c s) ".") as [? | _]; [contradiction|].
  reflexivity.
Qed.

(** The cache path of an area id without a slash: one component, under a
    name Pillow has a format for. *)
Lemma map_cache_file_plain (self : MapManager.t) (a : pyval) :
  MapManager.area_id self = Some a → Text.contains "/" (py_str a) = false →
  MapManager.map_cache_file self = Ok ["map_" ++ py_str a ++ ".png"]%string
  ∧ png ["map_" ++ py_str a ++ ".png"]%string = true.
Proof.
  intros Ha Hs. rewrite (MapManagerFacts.map_cache_file_Ok _ _ Ha).
  change ("map_" ++ py_str a ++ ".png")%string with (String "m" ("ap_" ++ py_str a ++ ".png")).
  split.
  - rewrite Path_plain; [reflexivity| |discriminate].
    change (String "m" ("ap_" ++ py_str a ++ ".png")) with ("map_" ++ py_str a ++ ".png")%string.
    now rewrite !IngestFacts.contains_app, Hs.
  - unfold png, Paths.extension. cbn [List.last].
    change (String "m" ("ap_" ++ py_str a ++ ".png"))
      with (String "m" ("ap_" ++ py_str a) ++ ".png")%string.
    now rewrite splitext_png.
Qed.

End PathFacts.

(** ** Memory and the cache file *)

Module CacheFacts.
Import MapManager.




End CacheFacts.
(** * Further properties of the code *)

(** ** MapManager: how the operations compose *)

Module ManagerFacts.
Import MapManager.

(** Reloading again from the same text changes nothing more. *)
Lemma reload_config_again `{Builtins}
      (text : string) (self self1 : t) (fs fs1 : files) (r : result ()) :
  reload_config text self fs = (r, self1, fs1) →
  reload_config text self1 fs1 = (r, self1, fs1).
Proof.
  rewrite !ReloadFacts.reload_config_cases.
  destruct (IHeartRadioConfig.load text) as [config|e]; [|now intros [= <- <- <-]].
  destruct (config !! AreaId.key) as [a|]; [|now intros [= <- <- <-]].
  destruct (config !! Coordinates.key ≫= _) as [[v|e]|]; now intros [= <- <- <-].
Qed.

(** [reload_config] is idempotent: a second call from the same text has
    the outcome of the first and leaves the manager and the files as the
    first left them, also when the first raised half way. *)
Theorem reload_config_twice `{Builtins} (text : string) (self : t) (fs : files) :
  let '(r, self1, fs1) := reload_config text self fs in
  reload_config text self1 fs1 = (r, self1, fs1).
Proof.
  destruct (reload_config text self fs) as [[r self1] fs1] eqn:Hr.
  now apply reload_config_again in Hr.
Qed.

(** When [reload_config] returns, nothing of the previous manager is left:
    the new manager has a config, holds no map, and is the one any other
    manager would become from the same text. *)
Theorem reload_config_replaces `{Builtins}
        (text : string) (self self' : t) (fs fs' : files) (u : ()) :
  reload_config text self fs = (Ok u, self', fs') →
  has_config self' = true
  ∧ _map self' = None
  ∧ ∀ other fs2, reload_config text other fs2 = (Ok (), self', fs2).
Proof.
  rewrite ReloadFacts.reload_config_cases. intros Hr.
  destruct (IHeartRadioConfig.load text) as [config|e] eqn:Hl; [|discriminate].
  destruct (config !! AreaId.key) as [a|] eqn:Ha; [|discriminate].
  destruct (config !! Coordinates.key ≫= _) as [[v|e]|] eqn:Hc; try discriminate.
  injection Hr as <- <- <-. split; [reflexivity|]. split; [reflexivity|].
  intros other fs2. now rewrite ReloadFacts.reload_config_cases, Hl, Ha, Hc.
Qed.

(** [reload_config_replaces] on the specification's example, from a
    manager that held a map for another area. *)
Lemma reload_config_replaces_witness :
  has_config (mk (Some (PyStr "ABC123")) (Some ((40.5, -75.1), (39.5, -74.1))%float) None)
  = true
  ∧ _map (mk (Some (PyStr "ABC123")) (Some ((40.5, -75.1), (39.5, -74.1))%float) None)
    = None
  ∧ ∀ other fs2,
      reload_config (H := Sample.builtins) Examples.config_text other fs2
      = (Ok (),
         mk (Some (PyStr "ABC123")) (Some ((40.5, -75.1), (39.5, -74.1))%float) None, fs2).
Proof.
  apply (reload_config_replaces (H := Sample.builtins) Examples.config_text
           Examples.old_manager _ Examples.fresh_files Examples.fresh_files ()).
  vm_compute. reflexivity.
Defined.

(** A call of the getter that raises found no map in memory and has
    written no file. Either it has changed nothing (there is no area id,
    the cache path cannot be examined, or no cache file is there and
    [create_map] raised), or the setter raised after it had assigned the
    attribute: the map that was read or created is in memory, and the cache
    path holds no file. *)
Theorem map_raise_cases `{Builtins} `{F : FileSystem}
        (self self' : t) (fs fs' : files) (e : exn) :
  map self fs = (Raise e, self', fs') →
  _map self = None
  ∧ main_map_file fs' = main_map_file fs
  ∧ (∀ key im, cache_directory fs' !! key = Some im → cache_directory fs !! key = Some im)
  ∧ ((self' = self ∧ fs' = fs
      ∧ ((area_id self = None ∧ e = AttributeError)
         ∨ (∃ path, map_cache_file self = Ok path ∧ locate path = Broken
                    ∧ e = refusal fs path)
         ∨ (∃ path, map_cache_file self = Ok path ∧ locate path ≠ Broken
                    ∧ file_at path fs = None ∧ create_map self fs = Raise e)))
     ∨ (∃ path value,
          map_cache_file self = Ok path
          ∧ (file_at path fs = Some value
             ∨ (file_at path fs = None ∧ create_map self fs = Ok value))
          ∧ map_setter value self fs = (Raise e, self', fs')
          ∧ self' = mk (area_id self) (coordinates self) (Some value)
          ∧ file_at path fs' = None)).
Proof.
  rewrite MapManagerFacts.map_cases.
  destruct (_map self) as [m|]; [discriminate|].
  destruct (map_cache_file self) as [path|e0] eqn:Hp.
  2:{ intros [= <- <- <-]. split; [reflexivity|]. split; [reflexivity|]. split; [auto|].
      left. split; [reflexivity|]. split; [reflexivity|]. left.
      unfold map_cache_file in Hp. destruct (area_id self); [discriminate|].
      now injection Hp as <-. }
  assert (∀ value, map_setter value self fs
                   = match locate path with
                     | Broken =>
                         (Raise (refusal fs path),
                          mk (area_id self) (coordinates self) (Some value), fs)
                     | Missing =>
                         (Raise (if png path then refusal fs path else ValueError),
                          mk (area_id self) (coordinates self) (Some value), fs)
                     | File key =>
                         if png path then
                           (Ok (), mk (area_id self) (coordinates self) (Some value),
                            write value key fs)
                         else
                           (Raise ValueError,
                            mk (area_id self) (coordinates self) (Some value), erase key fs)
                     end) as Hset.
  { intros value. now rewrite MapManagerFacts.map_setter_cases, Hp. }
  unfold file_at. destruct (locate path) as [key| |] eqn:Hl.
  - destruct (cache_directory fs !! key) as [file|] eqn:Hf.
    + destruct (png path) eqn:Hpng; [discriminate|]. intros [= <- <- <-].
      split; [reflexivity|]. split; [reflexivity|].
      split; [intros k im; apply FilesFacts.erase_subset|].
      right. exists path, file. rewrite Hl, Hf, Hset.
      split; [reflexivity|]. split; [now left|]. split; [reflexivity|].
      split; [reflexivity|]. apply FilesFacts.erase_lookup.
    + destruct (create_map self fs) as [im|e0] eqn:Hc.
      * destruct (png path) eqn:Hpng; [discriminate|]. intros [= <- <- <-].
        split; [reflexivity|]. split; [reflexivity|]. split; [auto|].
        right. exists path, im. rewrite Hl, Hf, Hset, (FilesFacts.erase_absent _ _ Hf).
        split; [reflexivity|]. split; [now right|]. split; [reflexivity|].
        split; reflexivity.
      * intros [= <- <- <-]. split; [reflexivity|]. split; [reflexivity|]. split; [auto|].
        left. split; [reflexivity|]. split; [reflexivity|]. right. right.
        exists path. rewrite Hl, Hf. split; [reflexivity|]. split; [discriminate|]. auto.
  - destruct (create_map self fs) as [im|e0] eqn:Hc; intros [= <- <- <-];
      (split; [reflexivity|]); (split; [reflexivity|]); (split; [auto|]).
    + right. exists path, im. rewrite Hl, Hset.
      split; [reflexivity|]. split; [now right|]. auto.
    + left. split; [reflexivity|]. split; [reflexivity|]. right. right.
      exists path. rewrite Hl. split; [reflexivity|]. split; [discriminate|]. auto.
  - intros [= <- <- <-]. split; [reflexivity|]. split; [reflexivity|]. split; [auto|].
    left. split; [reflexivity|]. split; [reflexivity|]. right. left.
    exists path. auto.
Qed.

(** [map_raise_cases] on a manager whose area id has a slash: the map is
    created and assigned, and saving it raises. *)
Lemma map_raise_cases_witness :
  map (H := Sample.builtins) (F := Sample.file_system) Examples.slash_manager
      Examples.fresh_files
  = (Raise FileNotFoundError,
     mk (Some (PyStr "a/b")) (Some Examples.us_box)
        (Some (Examples.rendered (1052, 1002, 11793, 6758))),
     Examples.fresh_files)
  ∧ ∃ path value,
      map_cache_file Examples.slash_manager = Ok path
      ∧ create_map (H := Sample.builtins) Examples.slash_manager Examples.fresh_files
        = Ok value
      ∧ map_setter (F := Sample.file_system) value Examples.slash_manager
          Examples.fresh_files
        = (Raise FileNotFoundError,
           mk (Some (PyStr "a/b")) (Some Examples.us_box)
              (Some (Examples.rendered (1052, 1002, 11793, 6758))),
           Examples.fresh_files)
      ∧ file_at (F := Sample.file_system) path Examples.fresh_files = None.
Proof.
  assert (map (H := Sample.builtins) (F := Sample.file_system) Examples.slash_manager
              Examples.fresh_files
          = (Raise FileNotFoundError,
             mk (Some (PyStr "a/b")) (Some Examples.us_box)
                (Some (Examples.rendered (1052, 1002, 11793, 6758))),
             Examples.fresh_files)) as Hrun by (vm_compute; reflexivity).
  split; [exact Hrun|].
  destruct (map_raise_cases (H := Sample.builtins) (F := Sample.file_system) _ _ _ _ _ Hrun)
    as (_ & _ & _ & [(Hsame & _) | (path & value & Hp & Hfrom & Hset & _ & Hnone)]).
  - discriminate Hsame.
  - exists path, value. destruct Hfrom as [Hfile | [_ Hcreated]]; [|auto].
    injection Hp as <-. vm_compute in Hfile. discriminate Hfile.
Defined.

(** What is assigned to [map] is what the getter returns next, whether or
    not the assignment raised; that call of the getter changes nothing. *)
Theorem map_after_setter `{Builtins} `{F : FileSystem}
        (value : PIL.Image) (self : t) (fs : files) :
  let '(r, self', fs') := map_setter value self fs in
  map self' fs' = (Ok value, self', fs').
Proof.
  rewrite MapManagerFacts.map_setter_cases. cbv zeta.
  destruct (map_cache_file self) as [path|e]; [|now apply MapManagerFacts.map_memory].
  destruct (locate path); [destruct (png path)|..]; now apply MapManagerFacts.map_memory.
Qed.

Lemma append_inj_r (a b s : string) : (a ++ s = b ++ s)%string → a = b.
Proof.
  intros Heq. apply (f_equal list_ascii_of_string) in Heq.
  rewrite !IngestFacts.chars_app in Heq. apply app_inv_tail in Heq.
  apply (f_equal string_of_list_ascii) in Heq.
  now rewrite !string_of_list_ascii_of_string in Heq.
Qed.

(** Areas named by different strings have different cache file names. *)
Lemma cache_file_inj (a b : string) :
  ("map_" ++ a ++ ".png" = "map_" ++ b ++ ".png")%string → a = b.
Proof. intros Heq. apply String.app_inj in Heq. now apply append_inj_r in Heq. Qed.

(** The getter changes no file other than the one its cache path names,
    and never the reference map. The cache paths of area ids without a
    slash are the paths of the one component [map_<id>.png], different for
    different ids: after a reload the file of the old area is left as it
    is. *)
Theorem map_keeps_other_files `{Builtins} `{F : FileSystem}
        (self self' : t) (fs fs' : files) (r : result PIL.Image) :
  map self fs = (r, self', fs') →
  main_map_file fs' = main_map_file fs
  ∧ (∀ key, (∀ path, map_cache_file self = Ok path → locate path ≠ File key) →
            cache_directory fs' !! key = cache_directory fs !! key)
  ∧ (∀ a b, area_id self = Some (PyStr a) → a ≠ b →
            Text.contains "/" a = false → Text.contains "/" b = false →
            map_cache_file self = Ok ["map_" ++ a ++ ".png"]%string
            ∧ map_cache_file (mk (Some (PyStr b)) (coordinates self) None)
              = Ok ["map_" ++ b ++ ".png"]%string
            ∧ ["map_" ++ a ++ ".png"]%string ≠ ["map_" ++ b ++ ".png"]%string).
Proof.
  intros Hmap. split; [now apply MapManagerFacts.map_keeps_descriptor in Hmap|]. split.
  - intros key Hother. rewrite MapManagerFacts.map_cases in Hmap.
    destruct (_map self) as [m|]; [now injection Hmap as <- <- <-|].
    destruct (map_cache_file self) as [path|e]; [|now injection Hmap as <- <- <-].
    specialize (Hother path eq_refl).
    destruct (locate path) as [key'| |].
    + assert (key ≠ key') as Hne by congruence.
      assert (cache_directory (erase key' fs) !! key = cache_directory fs !! key) as Herase.
      { unfold erase. cbn. apply lookup_delete_ne. congruence. }
      destruct (cache_directory fs !! key') as [file|].
      * destruct (png path); now injection Hmap as <- <- <-.
      * destruct (create_map self fs) as [im|e]; [|now injection Hmap as <- <- <-].
        destruct (png path); injection Hmap as <- <- <-; [|reflexivity].
        now apply FilesFacts.write_lookup_ne.
    + destruct (create_map self fs); now injection Hmap as <- <- <-.
    + now injection Hmap as <- <- <-.
  - intros a b Ha Hab Hsa Hsb.
    split; [now apply (PathFacts.map_cache_file_plain self (PyStr a))|].
    split; [now apply (PathFacts.map_cache_file_plain _ (PyStr b))|].
    intros Heq. apply (f_equal (hd EmptyString)) in Heq. cbn [hd] in Heq.
    apply cache_file_inj in Heq. contradiction.
Qed.

(** [map_keeps_other_files] for the areas [ABC123] and [OLD]. *)
Lemma map_keeps_other_files_witness :
  cache_directory
    (write (Examples.rendered (1052, 1002, 11793, 6758)) "map_ABC123.png"
           (Examples.rendered_file Examples.icon))
    !! "ABC123.png"%string
  = cache_directory (Examples.rendered_file Examples.icon) !! "ABC123.png"%string
  ∧ map_cache_file Examples.us_manager = Ok ["map_ABC123.png"%string]
  ∧ map_cache_file (mk (Some (PyStr "OLD")) (Some Examples.us_box) None)
    = Ok ["map_OLD.png"%string]
  ∧ ["map_ABC123.png"%string] ≠ ["map_OLD.png"%string].
Proof.
  assert (map (H := Sample.builtins) (F := Sample.file_system) Examples.us_manager
              (Examples.rendered_file Examples.icon)
          = (Ok (Examples.rendered (1052, 1002, 11793, 6758)),
             mk (Some (PyStr "ABC123")) (Some Examples.us_box)
                (Some (Examples.rendered (1052, 1002, 11793, 6758))),
             write (Examples.rendered (1052, 1002, 11793, 6758)) "map_ABC123.png"
                   (Examples.rendered_file Examples.icon))) as Hrun
    by (vm_compute; reflexivity).
  destruct (map_keeps_other_files (H := Sample.builtins) (F := Sample.file_system)
              _ _ _ _ _ Hrun) as (_ & Hother & Hplain).
  split.
  - apply Hother. intros path [= <-]. discriminate.
  - apply (Hplain "ABC123"%string "OLD"%string eq_refl); [discriminate | reflexivity..].
Defined.

(** The cache file brings the map back after a restart: when a call of the
    getter that found no map in memory has returned a map, a new manager
    with the same config and no map in memory returns the same map from
    the files that call left, and ends in the same state. *)
Theorem map_after_restart `{Builtins} `{F : FileSystem}
        (self self1 : t) (fs fs1 : files) (im : PIL.Image) :
  _map self = None → map self fs = (Ok im, self1, fs1) →
  map (mk (area_id self) (coordinates self) None) fs1 = (Ok im, self1, fs1).
Proof.
  intros Hm. rewrite !MapManagerFacts.map_cases, Hm. cbn [_map area_id coordinates].
  change (map_cache_file (mk (area_id self) (coordinates self) None))
    with (map_cache_file self).
  destruct (map_cache_file self) as [path|e]; [|discriminate].
  destruct (locate path) as [key| |]; [| |discriminate].
  - destruct (cache_directory fs !! key) as [file|] eqn:Hf.
    + destruct (png path); [|discriminate]. intros [= <- <- <-]. now rewrite Hf.
    + destruct (create_map self fs) as [im'|e] eqn:Hc; [|discriminate].
      destruct (png path); [|discriminate]. intros [= <- <- <-].
      rewrite FilesFacts.write_lookup, PILFacts.convert_same; [reflexivity|].
      now apply MapManagerFacts.create_map_shaped in Hc as [_ ?].
  - destruct (create_map self fs); discriminate.
Qed.

(** [map_after_restart] for the US box: the map created by the first call
    is read back from its cache file. *)
Lemma map_after_restart_witness :
  map (H := Sample.builtins) (F := Sample.file_system) Examples.us_manager
      (write (Examples.rendered (1052, 1002, 11793, 6758)) "map_ABC123.png"
             Examples.fresh_files)
  = (Ok (Examples.rendered (1052, 1002, 11793, 6758)),
     mk (Some (PyStr "ABC123")) (Some Examples.us_box)
        (Some (Examples.rendered (1052, 1002, 11793, 6758))),
     write (Examples.rendered (1052, 1002, 11793, 6758)) "map_ABC123.png"
           Examples.fresh_files).
Proof.
  apply (map_after_restart (H := Sample.builtins) (F := Sample.file_system)
           Examples.us_manager _ Examples.fresh_files _ _ eq_refl).
  vm_compute. reflexivity.
Defined.

End ManagerFacts.

(** ** MapManager: the dump directory *)

Module DropFacts.
Import MapManager.

Lemma filter_nil {A} (f : A → bool) (l : list A) :
  List.filter f l = [] ↔ Forall (fun x => f x = false) l.
Proof.
  induction l as [|x l IH]; [now split|]. cbn [List.filter].
  destruct (f x) eqn:Hx.
  - split; [discriminate|]. intros Hall. apply Forall_cons in Hall as [Hx' _]. congruence.
  - rewrite IH. split; [now constructor|]. intros Hall. now apply Forall_cons in Hall as [_ ?].
Qed.

Lemma filter_rest {A} (f : A → bool) (l : list A) :
  List.filter f (List.filter (fun x => negb (f x)) l) = [].
Proof.
  apply filter_nil, Forall_forall. intros x Hx.
  apply list_elem_of_In, filter_In in Hx as [_ Hx]. now apply negb_true_iff.
Qed.

Lemma reload_config_files `{Builtins}
      (text : string) (self self' : t) (fs fs' : files) (r : result ()) :
  reload_config text self fs = (r, self', fs') → fs' = fs.
Proof.
  rewrite ReloadFacts.reload_config_cases.
  destruct (IHeartRadioConfig.load text) as [config|e]; [|now intros [= <- <- <-]].
  destruct (config !! AreaId.key) as [a|]; [|now intros [= <- <- <-]].
  destruct (config !! Coordinates.key ≫= _) as [[v|e]|]; now intros [= <- <- <-].
Qed.

Lemma find_nothing `{Builtins} (dump : directory) (self : t) (fs : files) :
  List.filter is_DWRI dump = [] →
  find_and_reload_config dump self fs = (Ok false, self, fs, dump).
Proof. unfold find_and_reload_config. now intros ->. Qed.

(** With the outcome [False], nothing was done: [find_and_reload_config]
    returns [False] exactly when no file of the dump directory has [DWRI]
    in its name, and then the manager, the files and the dump directory
    are as before. *)
Theorem find_and_reload_config_False `{Builtins}
        (dump dump' : directory) (self self' : t) (fs fs' : files) :
  find_and_reload_config dump self fs = (Ok false, self', fs', dump')
  ↔ Forall (fun f => is_DWRI f = false) dump ∧ self' = self ∧ fs' = fs ∧ dump' = dump.
Proof.
  rewrite <- filter_nil. split.
  - unfold find_and_reload_config.
    destruct (List.filter is_DWRI dump) as [|[name text] rest]; [now intros [= <- <- <-]|].
    destruct (reload_config text self fs) as [[[u|e] self1] fs1]; discriminate.
  - intros (Hf & -> & -> & ->). now apply find_nothing.
Qed.

(** With the outcome [True], the manager was reloaded from the first file
    listed with [DWRI] in its name, whatever the other such files hold;
    every such file is gone from the dump directory and every other file
    is still there; the cache files are as before; and the next call finds
    nothing and returns [False]. *)
Theorem find_and_reload_config_True `{Builtins}
        (dump dump' : directory) (self self' : t) (fs fs' : files) :
  find_and_reload_config dump self fs = (Ok true, self', fs', dump') →
  (∃ name text rest,
      List.filter is_DWRI dump = (name, text) :: rest
      ∧ reload_config text self fs = (Ok (), self', fs'))
  ∧ (∀ f, f ∈ dump' ↔ f ∈ dump ∧ is_DWRI f = false)
  ∧ fs' = fs
  ∧ find_and_reload_config dump' self' fs' = (Ok false, self', fs', dump').
Proof.
  unfold find_and_reload_config at 1.
  destruct (List.filter is_DWRI dump) as [|[name text] rest] eqn:Hf; [discriminate|].
  destruct (reload_config text self fs) as [[[[]|e] self1] fs1] eqn:Hr; [|discriminate].
  intros [= <- <- <-]. split; [eauto|]. split.
  { intros f. rewrite !list_elem_of_In, filter_In, negb_true_iff. reflexivity. }
  split; [now apply reload_config_files in Hr|].
  apply find_nothing, filter_rest.
Qed.

(** [find_and_reload_config_True] on a dump directory with two config
    files and another file. *)
Lemma find_and_reload_config_True_witness :
  (∃ name text rest,
      List.filter is_DWRI Examples.dump_two = (name, text) :: rest
      ∧ reload_config (H := Sample.builtins) text Examples.old_manager Examples.fresh_files
        = (Ok (),
           mk (Some (PyStr "ABC123")) (Some ((40.5, -75.1), (39.5, -74.1))%float) None,
           Examples.fresh_files))
  ∧ (∀ f, f ∈ [("notes.txt", "x")]%string ↔ f ∈ Examples.dump_two ∧ is_DWRI f = false)
  ∧ Examples.fresh_files = Examples.fresh_files
  ∧ find_and_reload_config (H := Sample.builtins) [("notes.txt", "x")]%string
      (mk (Some (PyStr "ABC123")) (Some ((40.5, -75.1), (39.5, -74.1))%float) None)
      Examples.fresh_files
    = (Ok false,
       mk (Some (PyStr "ABC123")) (Some ((40.5, -75.1), (39.5, -74.1))%float) None,
       Examples.fresh_files, [("notes.txt", "x")]%string).
Proof.
  apply (find_and_reload_config_True (H := Sample.builtins) Examples.dump_two
           [("notes.txt", "x")]%string Examples.old_manager _
           Examples.fresh_files Examples.fresh_files).
  vm_compute. reflexivity.
Defined.

(** A config file that makes [reload_config] raise is never consumed:
    [find_and_reload_config] then raises before it deletes anything, so the
    dump directory and the files are as before, and the next call reads
    the same file and raises the same exception, leaving the same state. *)
Theorem find_and_reload_config_Raise `{Builtins}
        (dump dump' : directory) (self self' : t) (fs fs' : files) (e : exn) :
  find_and_reload_config dump self fs = (Raise e, self', fs', dump') →
  dump' = dump ∧ fs' = fs
  ∧ find_and_reload_config dump self' fs' = (Raise e, self', fs', dump).
Proof.
  unfold find_and_reload_config.
  destruct (List.filter is_DWRI dump) as [|[name text] rest] eqn:Hf; [discriminate|].
  destruct (reload_config text self fs) as [[[u|e'] self1] fs1] eqn:Hr; [discriminate|].
  intros [= <- <- <- <-]. split; [reflexivity|].
  split; [now apply reload_config_files in Hr|].
  now rewrite (ManagerFacts.reload_config_again _ _ _ _ _ _ Hr).
Qed.

(** [find_and_reload_config_Raise] on a config file without coordinates. *)
Lemma find_and_reload_config_Raise_witness :
  Examples.dump_bad = Examples.dump_bad
  ∧ Examples.fresh_files = Examples.fresh_files
  ∧ find_and_reload_config (H := Sample.builtins) Examples.dump_bad
      (mk (Some (PyStr "NEW")) None None) Examples.fresh_files
    = (Raise (KeyError "Coordinates"), mk (Some (PyStr "NEW")) None None,
       Examples.fresh_files, Examples.dump_bad).
Proof.
  apply (find_and_reload_config_Raise (H := Sample.builtins) Examples.dump_bad
           Examples.dump_bad init _ Examples.fresh_files Examples.fresh_files
           (KeyError "Coordinates")).
  vm_compute. reflexivity.
Defined.

End DropFacts.

(** ** AreaMap: reading the config, rendering, getting the map *)

Module AreaConfigFacts.
Import AreaMap.

Lemma read_lines_map `{Builtins} (lines : list string) (self self' : t) (r : result ()) :
  read_lines lines self = (r, self') → map self' = map self.
Proof.
  revert self. induction lines as [|line rest IH]; intros self; [now intros [= <- <-]|].
  cbn [read_lines]. destruct (Text.has_sub "DWR_Area_ID" line).
  - destruct (first_quoted line) as [a|]; [|now intros [= <- <-]].
    intros Hr. now apply IH in Hr.
  - destruct (Text.has_sub "Coordinates" line); [|apply IH].
    destruct (unpack4 (numbers line)) as [[[[f1 f2] f3] f4]|e]; [|now intros [= <- <-]].
    intros Hr. now apply IH in Hr.
Qed.

(** [get_config] never touches the map in memory, whatever it reads and
    whether or not it raises; so an instance that holds a map goes on
    returning that map from [get_map] after a new config was read. *)
Theorem get_config_keeps_map `{Builtins} `{F : FileSystem}
        (dump : directory) (self self' : t) (fs : files) (r : result bool) (m : PIL.Image) :
  map self = Some m → get_config dump self = (r, self') →
  map self' = Some m ∧ get_map self' fs = (Ok m, self', fs).
Proof.
  intros Hm Hg. assert (map self' = Some m) as Hm'.
  { unfold get_config in Hg. destruct (List.filter glob_DWRI dump) as [|[name text] rest].
    - now injection Hg as <- <-.
    - destruct (read_lines _ self) as [r0 self0] eqn:Hr. injection Hg as <- <-.
      apply read_lines_map in Hr. congruence. }
  split; [exact Hm'|]. unfold get_map. now rewrite Hm'.
Qed.

(** [get_config_keeps_map]: an instance that holds the map of the area
    [OLD] reads the config of [ABC123] and still returns the old map. *)
Lemma get_config_keeps_map_witness :
  map (mk (Some 40%float) (Some 75%float) (Some 39%float) (Some 74%float)
          (Some "ABC123"%string) (Some Examples.icon)) = Some Examples.icon
  ∧ get_map (H := Sample.builtins) (F := Sample.file_system)
      (mk (Some 40%float) (Some 75%float) (Some 39%float) (Some 74%float)
          (Some "ABC123"%string) (Some Examples.icon)) Examples.fresh_files
    = (Ok Examples.icon,
       mk (Some 40%float) (Some 75%float) (Some 39%float) (Some 74%float)
          (Some "ABC123"%string) (Some Examples.icon), Examples.fresh_files).
Proof.
  apply (get_config_keeps_map (H := Sample.builtins) (F := Sample.file_system)
           [("1_DWRI.txt"%string, Examples.whole_degrees)] Examples.old_area_map _
           Examples.fresh_files (Ok true) Examples.icon eq_refl).
  vm_compute. reflexivity.
Defined.

(** [get_config] returns [False] exactly when the dump directory lists no
    file with [DWRI] in its name other than those whose name starts with a
    dot, and then the instance is as before. *)
Theorem get_config_False `{Builtins} (dump : directory) (self self' : t) :
  get_config dump self = (Ok false, self')
  ↔ Forall (fun f => glob_DWRI f = false) dump ∧ self' = self.
Proof.
  rewrite <- DropFacts.filter_nil. unfold get_config.
  destruct (List.filter glob_DWRI dump) as [|[name text] rest].
  - split; [now intros [= <-] | now intros [_ ->]].
  - destruct (read_lines _ self) as [[u|e] self0]; (split; [discriminate | now intros [? _]]).
Qed.

(** *** The numbers of the coordinates line *)

Lemma numbers_from_cons (st : scan) (c : ascii) (s : string) :
  numbers_from st (String c s) = (step st c).2 ++ numbers_from (step st c).1 s.
Proof. cbn [numbers_from]. now destruct (step st c). Qed.

Lemma numbers_from_Digits (sg : option ascii) (acc : list ascii) (ds rest : string) :
  Examples.digits_only ds = true →
  numbers_from (Digits sg acc) (ds ++ rest)
  = numbers_from (Digits sg (rev (list_ascii_of_string ds) ++ acc)) rest.
Proof.
  unfold Examples.digits_only. revert acc.
  induction ds as [|c ds IH]; intros acc Hd; [reflexivity|].
  cbn [list_ascii_of_string forallb] in Hd. apply andb_true_iff in Hd as [Hc Hd].
  rewrite ReaderFacts.append_cons, numbers_from_cons. unfold step. rewrite Hc.
  cbn [fst snd app]. rewrite (IH _ Hd). cbn [list_ascii_of_string rev].
  now rewrite <- app_assoc.
Qed.

Lemma numbers_from_Fraction (sg : option ascii) (acc facc : list ascii) (fs rest : string) :
  Examples.digits_only fs = true →
  numbers_from (Fraction sg acc facc) (fs ++ rest)
  = numbers_from (Fraction sg acc (rev (list_ascii_of_string fs) ++ facc)) rest.
Proof.
  unfold Examples.digits_only. revert facc.
  induction fs as [|c fs IH]; intros facc Hd; [reflexivity|].
  cbn [list_ascii_of_string forallb] in Hd. apply andb_true_iff in Hd as [Hc Hd].
  rewrite ReaderFacts.append_cons, numbers_from_cons. unfold step. rewrite Hc.
  cbn [fst snd app]. rewrite (IH _ Hd). cbn [list_ascii_of_string rev].
  now rewrite <- app_assoc.
Qed.

Lemma text_of_chars (s : string) : text_of (rev (list_ascii_of_string s)) = s.
Proof. unfold text_of. now rewrite rev_involutive, string_of_list_ascii_of_string. Qed.

Lemma sign_not_digit (sg : ascii) : is_sign sg = true → is_digit sg = false.
Proof.
  unfold is_sign. intros Hs. apply orb_true_iff in Hs as [Hs | Hs];
    apply Ascii.eqb_eq in Hs as ->; reflexivity.
Qed.

(** A signed number keeps its sign only when it has a decimal point: of
    [-75] the pattern finds [75], of [-75.1] it finds [-75.1]. *)
Theorem numbers_signed (sg : ascii) (ds fs : string) :
  is_sign sg = true → ds ≠ EmptyString → Examples.digits_only ds = true →
  numbers (String sg ds) = [ds]
  ∧ (fs ≠ EmptyString → Examples.digits_only fs = true →
     numbers (String sg (ds ++ "." ++ fs)) = [String sg (ds ++ "." ++ fs)]).
Proof.
  intros Hsg Hds Hd. pose proof (sign_not_digit _ Hsg) as Hnd.
  assert (∀ rest, numbers (String sg (ds ++ rest))
                  = numbers_from (Digits (Some sg) (rev (list_ascii_of_string ds))) rest)
    as Hprefix.
  { intros rest. unfold numbers. rewrite numbers_from_cons. unfold step, start.
    rewrite Hnd, Hsg. cbn [fst snd app].
    destruct ds as [|d ds']; [contradiction|].
    unfold Examples.digits_only in Hd. cbn [list_ascii_of_string forallb] in Hd.
    apply andb_true_iff in Hd as [Hd0 Hd'].
    rewrite ReaderFacts.append_cons, numbers_from_cons. unfold step. rewrite Hd0.
    cbn [fst snd app]. rewrite (numbers_from_Digits _ _ _ _ Hd').
    reflexivity. }
  assert (rev (list_ascii_of_string ds) ≠ []) as Hacc.
  { intros Hnil. apply Hds. rewrite <- (text_of_chars ds), Hnil. reflexivity. }
  split.
  - rewrite <- (ReaderFacts.append_empty_r ds) at 1. rewrite Hprefix.
    cbn [numbers_from finish]. unfold integer_match.
    destruct (rev (list_ascii_of_string ds)) as [|c l] eqn:Hl; [contradiction|].
    rewrite <- Hl. now rewrite (text_of_chars ds).
  - intros Hfs Hf. rewrite Hprefix.
    change ("." ++ fs)%string with (String "." fs).
    rewrite numbers_from_cons. unfold step.
    change (is_digit ".") with false. change (Ascii.eqb "." ".") with true.
    cbn [fst snd app].
    destruct fs as [|f fs']; [contradiction|].
    unfold Examples.digits_only in Hf. cbn [list_ascii_of_string forallb] in Hf.
    apply andb_true_iff in Hf as [Hf0 Hf'].
    rewrite numbers_from_cons. unfold step. rewrite Hf0. cbn [fst snd app].
    rewrite <- (ReaderFacts.append_empty_r fs') at 1.
    rewrite (numbers_from_Fraction _ _ _ _ _ Hf'). cbn [numbers_from finish].
    unfold decimal_match. rewrite (text_of_chars ds).
    change (rev (list_ascii_of_string fs') ++ [f])
      with (rev (list_ascii_of_string (String f fs'))).
    now rewrite (text_of_chars (String f fs')).
Qed.

(** [numbers_signed] on [-75] and [-75.1]. *)
Lemma numbers_signed_witness :
  numbers "-75" = ["75"%string] ∧ numbers "-75.1" = ["-75.1"%string].
Proof.
  pose proof (numbers_signed "-" "75" "1" eq_refl ltac:(discriminate) eq_refl) as [Hint Hdec].
  split; [exact Hint|]. apply Hdec; [discriminate | reflexivity].
Defined.

(** Read by [get_config], a corner given in whole degrees west comes out
    east: the longitudes [-75] and [-74] are stored as 75 and 74. *)
Example get_config_whole_degrees :
  get_config (H := Sample.builtins) [("1_DWRI.txt"%string, Examples.whole_degrees)] init
  = (Ok true,
     mk (Some 40%float) (Some 75%float) (Some 39%float) (Some 74%float)
        (Some "ABC123"%string) None).
Proof. vm_compute. reflexivity. Qed.

(** *** The two kinds of line *)

Lemma closing_none (s : string) : Text.contains Text.dquote s = false → closing s = None.
Proof.
  induction s as [|c s IH]; [reflexivity|]. cbn [Text.contains closing]. intros Hs.
  apply orb_false_iff in Hs as [Hc Hs]. rewrite Hc, (IH Hs).
  now destruct (Ascii.eqb c Text.LF).
Qed.

Lemma first_quoted_none (s : string) :
  Text.contains Text.dquote s = false → first_quoted s = None.
Proof.
  induction s as [|c s IH]; [reflexivity|]. cbn [Text.contains first_quoted]. intros Hs.
  apply orb_false_iff in Hs as [Hc Hs]. now rewrite Hc, (IH Hs).
Qed.

Lemma closing_body (body post : string) :
  Text.contains Text.dquote body = false → Text.contains Text.LF body = false →
  closing (body ++ String Text.dquote post) = Some body.
Proof.
  induction body as [|c body IH]; [reflexivity|]. cbn [Text.contains]. intros Hq Hl.
  apply orb_false_iff in Hq as [Hcq Hq]. apply orb_false_iff in Hl as [Hcl Hl].
  rewrite ReaderFacts.append_cons. cbn [closing]. now rewrite Hcq, Hcl, (IH Hq Hl).
Qed.

Lemma first_quoted_skip (pre s : string) :
  Text.contains Text.dquote pre = false → first_quoted (pre ++ s) = first_quoted s.
Proof.
  induction pre as [|c pre IH]; [reflexivity|]. cbn [Text.contains]. intros Hq.
  apply orb_false_iff in Hq as [Hc Hq].
  rewrite ReaderFacts.append_cons. cbn [first_quoted]. now rewrite Hc, (IH Hq).
Qed.

Lemma first_quoted_found (pre body post : string) (c : ascii) :
  Text.contains Text.dquote pre = false → c ≠ Text.LF →
  Text.contains Text.dquote body = false → Text.contains Text.LF body = false →
  first_quoted (pre ++ Examples.quoted (String c body) ++ post) = Some (String c body).
Proof.
  intros Hpre Hc Hq Hl. rewrite (first_quoted_skip _ _ Hpre).
  unfold Examples.quoted, Text.wrap.
  rewrite !ReaderFacts.append_cons, ReaderFacts.append_assoc.
  change (String Text.dquote EmptyString ++ post)%string with (String Text.dquote post).
  cbn [first_quoted]. change (Ascii.eqb Text.dquote Text.dquote) with true. cbv iota.
  destruct (Ascii.eqb_spec c Text.LF) as [? | _]; [contradiction|].
  now rewrite (closing_body _ _ Hq Hl).
Qed.

Lemma first_quoted_empty (pre post : string) :
  Text.contains Text.dquote pre = false → Text.contains Text.dquote post = false →
  first_quoted (pre ++ Examples.quoted EmptyString ++ post) = None.
Proof.
  intros Hpre Hpost. rewrite (first_quoted_skip _ _ Hpre).
  change (Examples.quoted EmptyString ++ post)%string
    with (String Text.dquote (String Text.dquote post)).
  cbn [first_quoted]. change (Ascii.eqb Text.dquote Text.dquote) with true.
  change (Ascii.eqb Text.dquote Text.LF) with false. cbv iota.
  rewrite (closing_none _ Hpost).
  destruct post as [|c post']; [reflexivity|].
  pose proof (first_quoted_none _ Hpost) as Hnone.
  cbn [Text.contains] in Hpost. apply orb_false_iff in Hpost as [_ Hpost'].
  destruct (Ascii.eqb c Text.LF); [exact Hnone|].
  now rewrite (closing_none _ Hpost').
Qed.

(** A line with [DWR_Area_ID] in it. The area id becomes the text between
    the first double quote and the next one after at least one character.
    When the line has no double quote, or only an empty pair of them, the
    loop raises [IndexError] and the instance is as the lines before left
    it. *)
Theorem read_lines_area_id `{Builtins} (line : string) (rest : list string) (self : t) :
  Text.has_sub "DWR_Area_ID" line = true →
  (Text.contains Text.dquote line = false →
   read_lines (line :: rest) self = (Raise IndexError, self))
  ∧ (∀ pre post,
       line = (pre ++ Examples.quoted EmptyString ++ post)%string →
       Text.contains Text.dquote pre = false → Text.contains Text.dquote post = false →
       read_lines (line :: rest) self = (Raise IndexError, self))
  ∧ (∀ pre post body c,
       line = (pre ++ Examples.quoted (String c body) ++ post)%string →
       Text.contains Text.dquote pre = false → c ≠ Text.LF →
       Text.contains Text.dquote body = false → Text.contains Text.LF body = false →
       read_lines (line :: rest) self
       = read_lines rest
           (mk (lat1 self) (lon1 self) (lat2 self) (lon2 self) (Some (String c body))
               (map self))).
Proof.
  intros Hline. cbn [read_lines]. rewrite Hline. split; [|split].
  - intros Hq. now rewrite (first_quoted_none _ Hq).
  - intros pre post -> Hpre Hpost. now rewrite (first_quoted_empty _ _ Hpre Hpost).
  - intros pre post body c -> Hpre Hc Hq Hl.
    now rewrite (first_quoted_found _ _ _ _ Hpre Hc Hq Hl).
Qed.

(** [read_lines_area_id] on a bare area id, an empty one and a quoted
    one. *)
Lemma read_lines_area_id_witness :
  read_lines (H := Sample.builtins) ["DWR_Area_ID=ABC123"%string] init
  = (Raise IndexError, init)
  ∧ read_lines (H := Sample.builtins)
      [("DWR_Area_ID=" ++ Examples.quoted EmptyString ++ EmptyString)%string] init
    = (Raise IndexError, init)
  ∧ read_lines (H := Sample.builtins)
      [("DWR_Area_ID=" ++ Examples.quoted "ABC123" ++ Examples.newline)%string] init
    = (Ok (), mk None None None None (Some "ABC123"%string) None).
Proof.
  split; [|split].
  - apply (proj1 (read_lines_area_id (H := Sample.builtins) "DWR_Area_ID=ABC123" [] init
                    eq_refl)). reflexivity.
  - apply (proj1 (proj2 (read_lines_area_id (H := Sample.builtins)
                           ("DWR_Area_ID=" ++ Examples.quoted EmptyString ++ EmptyString)
                           [] init eq_refl)) "DWR_Area_ID="%string EmptyString eq_refl);
      reflexivity.
  - apply (proj2 (proj2 (read_lines_area_id (H := Sample.builtins)
                           ("DWR_Area_ID=" ++ Examples.quoted "ABC123" ++ Examples.newline)
                           [] init eq_refl))
                 "DWR_Area_ID="%string Examples.newline "BC123"%string "A"%char eq_refl);
      (reflexivity || discriminate).
Defined.

Lemma floats_length `{Builtins} (coords : list string) (fl : list float) :
  floats coords = Ok fl → length fl = length coords.
Proof.
  revert fl. induction coords as [|x coords IH]; intros fl; [now intros [= <-]|].
  cbn [floats]. destruct (py_float x) as [f|e]; [|discriminate]. cbn.
  destruct (floats coords) as [fl'|e]; [|discriminate]. intros [= <-]. cbn.
  now rewrite (IH fl' eq_refl).
Qed.

Lemma unpack4_wrong_count `{Builtins} (coords : list string) :
  length coords ≠ 4%nat → raises (unpack4 coords) = true.
Proof.
  intros Hn. unfold unpack4. destruct (floats (take 5 coords)) as [fl|e] eqn:Hf; [|reflexivity].
  apply floats_length in Hf. rewrite length_take in Hf. cbn.
  destruct fl as [|f1 [|f2 [|f3 [|f4 [|f5 fl]]]]]; try reflexivity.
  cbn [length] in Hf. exfalso. lia.
Qed.

(** A line with [Coordinates] in it and without [DWR_Area_ID]. With four
    numbers that [float] reads, the four coordinates are replaced, in the
    order read; with any other count of numbers the loop raises, and the
    instance is as the lines before left it: its coordinates are the old
    ones. *)
Theorem read_lines_coordinates `{Builtins} (line : string) (rest : list string) (self : t) :
  Text.has_sub "DWR_Area_ID" line = false → Text.has_sub "Coordinates" line = true →
  (length (numbers line) ≠ 4%nat → ∃ e, read_lines (line :: rest) self = (Raise e, self))
  ∧ (∀ n1 n2 n3 n4 f1 f2 f3 f4,
       numbers line = [n1; n2; n3; n4] →
       py_float n1 = Ok f1 → py_float n2 = Ok f2 → py_float n3 = Ok f3 →
       py_float n4 = Ok f4 →
       read_lines (line :: rest) self
       = read_lines rest
           (mk (Some f1) (Some f2) (Some f3) (Some f4) (area_id self) (map self))).
Proof.
  intros Hid Hco. cbn [read_lines]. rewrite Hid, Hco. split.
  - intros Hn. apply unpack4_wrong_count in Hn.
    destruct (unpack4 (numbers line)) as [v|e]; [discriminate | eauto].
  - intros n1 n2 n3 n4 f1 f2 f3 f4 -> H1 H2 H3 H4.
    unfold unpack4. cbn [take floats]. now rewrite H1, H2, H3, H4.
Qed.

(** [read_lines_coordinates] on a line of three numbers and on a line of
    four. *)
Lemma read_lines_coordinates_witness :
  (∃ e, read_lines (H := Sample.builtins) ["Coordinates=(40.5,-75.1);(39.5)"%string]
          Examples.old_area_map = (Raise e, Examples.old_area_map))
  ∧ read_lines (H := Sample.builtins) ["Coordinates=(40.5,-75.1);(39.5,-74.1)"%string]
      Examples.old_area_map
    = (Ok (),
       mk (Some 40.5%float) (Some (-75.1)%float) (Some 39.5%float) (Some (-74.1)%float)
          (Some "OLD"%string) (Some Examples.icon)).
Proof.
  split.
  - apply (proj1 (read_lines_coordinates (H := Sample.builtins)
                    "Coordinates=(40.5,-75.1);(39.5)" [] Examples.old_area_map
                    eq_refl eq_refl)).
    vm_compute. lia.
  - apply (proj2 (read_lines_coordinates (H := Sample.builtins)
                    "Coordinates=(40.5,-75.1);(39.5,-74.1)" [] Examples.old_area_map
                    eq_refl eq_refl)
                 "40.5"%string "-75.1"%string "39.5"%string "-74.1"%string);
      vm_compute; reflexivity.
Defined.

(** *** Rendering and the rendered file *)

(** An instance that has coordinates and no area id renders all the same:
    the map is saved as [None.png], and [has_config] still answers no. *)
Theorem render_without_area_id `{Builtins} `{F : FileSystem}
        (self self' : t) (fs fs' : files) (im : PIL.Image) :
  area_id self = None → render self fs = (Ok im, self', fs') →
  file_at (Paths.Path "None.png") fs' = Some im
  ∧ map self' = Some im
  ∧ has_config self' = false.
Proof.
  intros Ha Hr.
  apply AreaMapFacts.render_Ok in Hr as (l1 & l2 & key & _ & _ & -> & _ & Hl & ->).
  unfold name in Hl. rewrite Ha in Hl. unfold has_config. cbn [area_id map]. rewrite Ha.
  split; [|split; reflexivity].
  rewrite (FilesFacts.file_at_File _ _ _ Hl). apply FilesFacts.write_lookup.
Qed.

(** [render_without_area_id] for the US box. *)
Lemma render_without_area_id_witness :
  file_at (F := Sample.file_system) ["None.png"%string]
    (write (Examples.rendered (1052, 1002, 11793, 6758)) "None.png" Examples.fresh_files)
  = Some (Examples.rendered (1052, 1002, 11793, 6758))
  ∧ map (mk (Some 0.096114595568172811%float) (Some (-125)%float)
            (Some 0.64822774156074048%float) (Some (-66)%float) None
            (Some (Examples.rendered (1052, 1002, 11793, 6758))))
    = Some (Examples.rendered (1052, 1002, 11793, 6758))
  ∧ has_config (mk (Some 0.096114595568172811%float) (Some (-125)%float)
                   (Some 0.64822774156074048%float) (Some (-66)%float) None
                   (Some (Examples.rendered (1052, 1002, 11793, 6758))))
    = false.
Proof.
  apply (render_without_area_id (H := Sample.builtins) (F := Sample.file_system)
           Examples.anonymous_area_map _ Examples.fresh_files _ _ eq_refl).
  vm_compute. reflexivity.
Defined.

(** The rendered file brings the map back: when [get_map], with no map in
    memory, has returned a map, a new instance with the same area id and
    any coordinates returns the same map from the files that call left,
    and leaves them as they are. *)
Theorem get_map_after_restart `{Builtins} `{F : FileSystem}
        (self self1 : t) (fs fs1 : files) (im : PIL.Image)
        (l1 o1 l2 o2 : option float) :
  map self = None → get_map self fs = (Ok im, self1, fs1) →
  get_map (mk l1 o1 l2 o2 (area_id self) None) fs1
  = (Ok im, mk l1 o1 l2 o2 (area_id self) (Some im), fs1).
Proof.
  intros Hm. rewrite !AreaMapFacts.get_map_cases, Hm. cbv zeta. cbn [map].
  change (name (mk l1 o1 l2 o2 (area_id self) None)) with (name self).
  assert (render self fs = (Ok im, self1, fs1) →
          match locate (Paths.Path (name self)) with
          | File key =>
              match cache_directory fs1 !! key with
              | Some file =>
                  (Ok (PIL.convert PIL.RGBA file),
                   mk l1 o1 l2 o2 (area_id self) (Some (PIL.convert PIL.RGBA file)), fs1)
              | None => render (mk l1 o1 l2 o2 (area_id self) None) fs1
              end
          | Missing => render (mk l1 o1 l2 o2 (area_id self) None) fs1
          | Broken =>
              (Raise (refusal fs1 (Paths.Path (name self))),
               mk l1 o1 l2 o2 (area_id self) None, fs1)
          end = (Ok im, mk l1 o1 l2 o2 (area_id self) (Some im), fs1)) as Hrender.
  { intros Hr. pose proof (AreaMapFacts.render_shaped _ _ _ _ _ Hr) as [_ Hmode].
    apply AreaMapFacts.render_Ok in Hr as (x1 & x2 & key & _ & _ & _ & _ & Hl & ->).
    rewrite Hl, FilesFacts.write_lookup. now rewrite (PILFacts.convert_same _ _ Hmode). }
  destruct (locate (Paths.Path (name self))) as [key| |] eqn:Hl;
    [|now auto|discriminate].
  destruct (cache_directory fs !! key) as [file|] eqn:Hf; [|now auto].
  intros [= <- <- <-]. cbn [area_id]. now rewrite Hf.
Qed.

(** [get_map_after_restart] for the US box. *)
Lemma get_map_after_restart_witness :
  get_map (H := Sample.builtins) (F := Sample.file_system)
          (mk None None None None (Some "ABC123"%string) None)
          (write (Examples.rendered (1052, 1002, 11793, 6758)) "ABC123.png"
                 Examples.fresh_files)
  = (Ok (Examples.rendered (1052, 1002, 11793, 6758)),
     mk None None None None (Some "ABC123"%string)
        (Some (Examples.rendered (1052, 1002, 11793, 6758))),
     write (Examples.rendered (1052, 1002, 11793, 6758)) "ABC123.png" Examples.fresh_files).
Proof.
  apply (get_map_after_restart (H := Sample.builtins) (F := Sample.file_system)
           Examples.us_area_map
           (mk (Some 0.096114595568172811%float) (Some (-125)%float)
               (Some 0.64822774156074048%float) (Some (-66)%float) (Some "ABC123"%string)
               (Some (Examples.rendered (1052, 1002, 11793, 6758))))
           Examples.fresh_files _ _ None None None None eq_refl).
  vm_compute. reflexivity.
Defined.

End AreaConfigFacts.

(** ** Calling twice *)

Module TwiceFacts.

(** [MapManagerFacts.map_twice] for the US box: the map created by the
    first call is returned by the second. *)
Lemma map_twice_witness :
  ∃ m, MapManager.map (H := Sample.builtins) (F := Sample.file_system)
         (MapManager.mk (Some (PyStr "ABC123")) (Some Examples.us_box)
                        (Some (Examples.rendered (1052, 1002, 11793, 6758))))
         (write (Examples.rendered (1052, 1002, 11793, 6758)) "map_ABC123.png"
                Examples.fresh_files)
       = (Ok m,
          MapManager.mk (Some (PyStr "ABC123")) (Some Examples.us_box)
                        (Some (Examples.rendered (1052, 1002, 11793, 6758))),
          write (Examples.rendered (1052, 1002, 11793, 6758)) "map_ABC123.png"
                Examples.fresh_files)
       ∧ (Examples.rendered (1052, 1002, 11793, 6758) = m
          ∨ Examples.rendered (1052, 1002, 11793, 6758) = PIL.convert PIL.RGBA m)
       ∧ (PIL.mode_of m = PIL.RGBA → Examples.rendered (1052, 1002, 11793, 6758) = m).
Proof.
  apply (MapManagerFacts.map_twice (H := Sample.builtins) (F := Sample.file_system)
           Examples.us_manager _ Examples.fresh_files).
  vm_compute. reflexivity.
Defined.

(** [MapManagerFacts.create_map_repeatable] for the US box. *)
Lemma create_map_repeatable_witness :
  MapManager.create_map (H := Sample.builtins)
    (MapManager.mk (Some (PyStr "ABC123")) (Some Examples.us_box)
                   (Some (Examples.rendered (1052, 1002, 11793, 6758))))
    (write (Examples.rendered (1052, 1002, 11793, 6758)) "map_ABC123.png"
           Examples.fresh_files)
  = MapManager.create_map (H := Sample.builtins) Examples.us_manager Examples.fresh_files.
Proof.
  apply (MapManagerFacts.create_map_repeatable (H := Sample.builtins)
           (F := Sample.file_system) Examples.us_manager _
           Examples.fresh_files _ (Ok (Examples.rendered (1052, 1002, 11793, 6758)))).
  vm_compute. reflexivity.
Defined.

(** [AreaMapFacts.get_map_twice] for the US box. *)
Lemma get_map_twice_witness :
  AreaMap.get_map (H := Sample.builtins) (F := Sample.file_system)
    (AreaMap.mk (Some 0.096114595568172811%float) (Some (-125)%float)
                (Some 0.64822774156074048%float) (Some (-66)%float) (Some "ABC123"%string)
                (Some (Examples.rendered (1052, 1002, 11793, 6758))))
    (write (Examples.rendered (1052, 1002, 11793, 6758)) "ABC123.png" Examples.fresh_files)
  = (Ok (Examples.rendered (1052, 1002, 11793, 6758)),
     AreaMap.mk (Some 0.096114595568172811%float) (Some (-125)%float)
                (Some 0.64822774156074048%float) (Some (-66)%float) (Some "ABC123"%string)
                (Some (Examples.rendered (1052, 1002, 11793, 6758))),
     write (Examples.rendered (1052, 1002, 11793, 6758)) "ABC123.png" Examples.fresh_files).
Proof.
  apply (AreaMapFacts.get_map_twice (H := Sample.builtins) (F := Sample.file_system)
           Examples.us_area_map _ Examples.fresh_files).
  vm_compute. reflexivity.
Defined.

End TwiceFacts.
